(** * AI Photo Studio: crop modal, upload gate and generation client

    A shallow embedding of the TypeScript sources
    - [services/geminiService.ts] (error translation, prompt synthesis,
      image edit),
    - [components/ImageCropModal.tsx] (crop state and canvas export),
    - [App.tsx] (upload gate, generation handlers, error banner),
    together with the properties the specification states about them.

    Conventions.
    - A JavaScript [number] is an exact rational ([Q]); the rounding of
      IEEE doubles is outside the model.  Numbers are compared with [==].
    - JavaScript strings are [string]s of ASCII characters.
    - React state is a record; a handler is a function from the state
      before the event to the state after it.  What the browser or the
      remote service decides (layout, canvas encoding, file reading, the
      remote answer) is an explicit argument of the handler.
    - An asynchronous handler runs from its first line to its last on
      the state it was started on; interleavings of handlers are outside
      the model.
    - [console.error] calls are collected in a log. *)

From Stdlib Require Import String Ascii List Bool ZArith QArith Qround Lia Lqa.
From Stdlib Require DecimalString.
Import ListNotations.

Set Implicit Arguments.

(* ================================================================== *)
(** * JavaScript values used by the sources *)
(* ================================================================== *)

Module Js.

Open Scope string_scope.

(** ** Strings *)

Definition lowerAscii (c : ascii) : ascii :=
  let n := nat_of_ascii c in
  if (65 <=? n)%nat && (n <=? 90)%nat then ascii_of_nat (n + 32) else c.

(** [String.prototype.toLowerCase]. *)
Fixpoint toLowerCase (s : string) : string :=
  match s with
  | EmptyString => EmptyString
  | String c rest => String (lowerAscii c) (toLowerCase rest)
  end.

(** [s.startsWith(p)]. *)
Definition startsWith (s p : string) : bool := String.prefix p s.

(** [s.includes(needle)]. *)
Fixpoint includes (s needle : string) : bool :=
  String.prefix needle s
  || match s with
     | EmptyString => false
     | String _ rest => includes rest needle
     end.

Definition isSpace (c : ascii) : bool :=
  let n := nat_of_ascii c in
  (n =? 32)%nat || ((9 <=? n)%nat && (n <=? 13)%nat).

Fixpoint trimStart (s : string) : string :=
  match s with
  | String c rest => if isSpace c then trimStart rest else s
  | EmptyString => EmptyString
  end.

(** Drops the white space at the end: a character is kept when it is
    not a space or when something is kept after it. *)
Fixpoint trimEnd (s : string) : string :=
  match s with
  | EmptyString => EmptyString
  | String c rest =>
      match trimEnd rest with
      | EmptyString => if isSpace c then EmptyString else String c EmptyString
      | kept => String c kept
      end
  end.

(** [String.prototype.trim]. *)
Definition trim (s : string) : string := trimEnd (trimStart s).

(** [s.split(sep)] for a separator of one character. *)
Fixpoint split (sep : ascii) (s : string) : list string :=
  match s with
  | EmptyString => [EmptyString]
  | String c rest =>
      if Ascii.eqb c sep then EmptyString :: split sep rest
      else match split sep rest with
           | piece :: pieces => String c piece :: pieces
           | [] => [String c EmptyString]
           end
  end.

(** A string is falsy exactly when it is empty. *)
Definition truthy (s : string) : bool :=
  match s with EmptyString => false | _ => true end.

(** ** Thrown values

    What a [catch] clause receives: an [Error] object with its
    [message], or a value that is no [Error] (a [ProgressEvent] of a
    [FileReader], for one), whose [message] property is [undefined]. *)

Inductive Thrown : Type :=
| JsError (message : string)
| NonError.

Definition message (e : Thrown) : option string :=
  match e with
  | JsError m => Some m
  | NonError => None
  end.

(** [e.message || fallback]. *)
Definition messageOr (e : Thrown) (fallback : string) : string :=
  match message e with
  | Some m => if truthy m then m else fallback
  | None => fallback
  end.

(** [`${e.message}`] inside a template literal. *)
Definition messageText (e : Thrown) : string :=
  match message e with
  | Some m => m
  | None => "undefined"
  end.

(** The outcome of awaiting a promise, or of a [try] block. *)
Inductive Result (A : Type) : Type :=
| Returns (a : A)
| Raises (e : Thrown).
Arguments Raises {A} e.

(** ** Console

    A computation that may call [console.error]: its value and the
    labels it logged, oldest first. *)

Definition Logged (A : Type) : Type := (list string * A)%type.

Definition ret {A} (a : A) : Logged A := ([], a).

Definition bind {A B} (m : Logged A) (k : A -> Logged B) : Logged B :=
  let (log1, a) := m in
  let (log2, b) := k a in
  ((log1 ++ log2)%list, b).

Definition consoleError (label : string) : Logged unit := ([label], tt).

Definition logOf {A} (m : Logged A) : list string := fst m.
Definition valueOf {A} (m : Logged A) : A := snd m.

End Js.

Import Js.

Notation "x <- m ;; k" := (bind m (fun x => k))
  (at level 61, m at next level, right associativity).
Notation "m ;;; k" := (bind m (fun _ => k))
  (at level 61, right associativity).

(* ================================================================== *)
(** * types.ts *)
(* ================================================================== *)

Module Types.

Inductive AspectRatio : Type := SQUARE | PORTRAIT | LANDSCAPE.

Inductive LightingStyle : Type :=
  STUDIO | NATURAL | CINEMATIC | DRAMATIC | SOFT | HIGH_KEY.

Inductive CameraPerspective : Type :=
  EYE_LEVEL | HIGH_ANGLE | LOW_ANGLE | CLOSE_UP | WIDE_SHOT | DUTCH_ANGLE.

Record StyleSettings : Type := {
  aspectRatio : AspectRatio;
  lightingStyle : LightingStyle;
  cameraPerspective : CameraPerspective
}.

(** The string values of the enums. *)
Definition aspectRatioValue (a : AspectRatio) : string :=
  match a with
  | SQUARE => "1:1"
  | PORTRAIT => "3:4"
  | LANDSCAPE => "16:9"
  end.

Definition lightingStyleValue (l : LightingStyle) : string :=
  match l with
  | STUDIO => "Studio Lighting"
  | NATURAL => "Natural Light"
  | CINEMATIC => "Cinematic"
  | DRAMATIC => "Dramatic"
  | SOFT => "Soft Glow"
  | HIGH_KEY => "High-Key"
  end.

Definition cameraPerspectiveValue (c : CameraPerspective) : string :=
  match c with
  | EYE_LEVEL => "Eye-level"
  | HIGH_ANGLE => "High-angle"
  | LOW_ANGLE => "Low-angle"
  | CLOSE_UP => "Close-up"
  | WIDE_SHOT => "Wide shot"
  | DUTCH_ANGLE => "Dutch Angle"
  end.

End Types.

Open Scope string_scope.

(** An image as the application passes it around:
    [{ base64: string, mimeType: string }]. *)
Record EncodedImage : Type := {
  base64 : string;
  mimeType : string
}.

(* ================================================================== *)
(** * The generative-model SDK, as the service uses it *)
(* ================================================================== *)

Module Genai.

(** [part.inlineData]: [{ data, mimeType }].  In an answer of the
    service either field may be missing ([undefined]). *)
Record Blob : Type := {
  data : option string;
  mimeType : option string
}.

(** A content part: [{ text }] or [{ inlineData }]. *)
Record Part : Type := {
  text : option string;
  inlineData : option Blob
}.

Definition textPart (t : string) : Part :=
  {| text := Some t; inlineData := None |}.

Definition inlinePart (d m : string) : Part :=
  {| text := None;
     inlineData := Some {| data := Some d; mimeType := Some m |} |}.

(** [candidate.content]: its [parts] may be missing. *)
Record Content : Type := { parts : option (list Part) }.

(** A candidate: its [content] may be missing, as in an answer that was
    blocked. *)
Record Candidate : Type := { content : option Content }.

(** The response, with its [text] accessor and its [candidates]. *)
Record GenerateContentResponse : Type := {
  responseText : option string;
  candidates : option (list Candidate)
}.

Inductive Modality : Type := IMAGE | TEXT.

(** The argument of [ai.models.generateContent]. *)
Record GenerateContentParameters : Type := {
  model : string;
  contents : list Part;
  responseModalities : option (list Modality)
}.

(** Awaiting the remote call: it throws, or it answers. *)
Inductive Outcome : Type :=
| Throws (e : Thrown)
| Responds (r : GenerateContentResponse).

(** The remote service, [ai.models.generateContent]. *)
Definition Remote : Type := GenerateContentParameters -> Outcome.

End Genai.

(* ================================================================== *)
(** * services/geminiService.ts *)
(* ================================================================== *)

Module GeminiService.

Definition promptGenerationModel : string := "gemini-2.5-flash".
Definition imageEditingModel : string := "gemini-2.5-flash-image-preview".

Definition invalidKeyMessage : string :=
  "Invalid API Key. Please check if the API key is configured correctly.".

Definition rateLimitMessage : string :=
  "You have exceeded your API request limit. Please wait and try again later.".

Definition unexpectedMessage (context : string) : string :=
  "An unexpected error occurred during " ++ context
  ++ ". Please check the console for details.".

Definition noImageMessage : string :=
  "The AI model did not return an image. Try adjusting your prompt or using a different image.".

Definition emptyPromptMessage : string := "The model returned an empty prompt.".

(** The [TypeError]s of the engine on a property of [undefined] and on a
    loop over [undefined].  The wording is the engine's (that of V8 is
    taken here); no engine words it with one of the phrases
    [handleGeminiError] looks for. *)
Definition typeErrorReading (property : string) : Thrown :=
  JsError ("Cannot read properties of undefined (reading '" ++ property ++ "')").

Definition typeErrorNotIterable : Thrown :=
  JsError "response.candidates[0].content.parts is not iterable".

(** [handleGeminiError]: logs, then turns what was caught into the
    [Error] the caller throws. *)
Definition handleGeminiError (error : Thrown) (context : string)
  : Logged Thrown :=
  consoleError ("Error during " ++ context ++ ":") ;;;
  ret (match error with
       | JsError m =>
           let message := toLowerCase m in
           if includes message "api key not valid" then
             JsError invalidKeyMessage
           else if includes message "rate limit" then
             JsError rateLimitMessage
           else if includes message "did not return an image" then
             error
           else JsError (unexpectedMessage context)
       | NonError => JsError (unexpectedMessage context)
       end).

(** A [File] of the browser: its declared type, its size in bytes, and
    what a [FileReader] makes of it ([None]: the reader fires [onerror]). *)
Record File : Type := {
  type : string;
  size : Z;
  readAsDataURL : option string
}.

(** [fileToBase64].  The reader's result is a data URL, whose payload
    the piece after the first comma is ([split(',')[1]]; a result
    without comma, which a reader never gives, has no such piece and
    yields the empty string here); the event passed to [reject] is no
    [Error]. *)
Definition fileToBase64 (file : File) : Result EncodedImage :=
  match readAsDataURL file with
  | Some result =>
      Returns {| base64 := nth 1 (split "," result) EmptyString;
                 mimeType := type file |}
  | None => Raises NonError
  end.

(** The line feed and the double quote of the prompt template. *)
Definition nl : string := String (ascii_of_nat 10) EmptyString.
Definition dq : string := String (ascii_of_nat 34) EmptyString.

Definition unlines (ls : list string) : string :=
  String.concat nl ls.

(** The part of [textPrompt] that is there with a style image. *)
Definition styleReferenceSection : string :=
  unlines [
    EmptyString;
    "**Style Reference Analysis:**";
    "A style reference image has been provided. Your prompt MUST incorporate its aesthetic.";
    "1.  **Analyze the Essence:** Deconstruct the reference image's core visual elements: color palette (dominant and accent colors), textures (e.g., grainy, smooth, metallic, organic), composition, and overall mood (e.g., minimalist and clean, rustic and warm, futuristic and edgy).";
    "2.  **Translate the Context:** Imagine a new scene inspired by the reference image that would perfectly showcase the user's product. Describe this environment. For instance, if the reference is a sun-drenched beach, the prompt might describe the product resting on weathered driftwood with soft, natural morning light.";
    "3.  **Integrate and Enhance:** Weave the analyzed style elements and the new context seamlessly with the user-defined parameters. The user's choices for lighting and perspective are the primary guide, but they should be interpreted through the lens of the reference image's style.";
    EmptyString ].

(** The template literal [textPrompt]. *)
Definition textPrompt (settings : Types.StyleSettings)
  (styleImage : option EncodedImage) : string :=
  unlines [
    "You are an expert creative director for a high-end product photography studio using an advanced AI editor. Your mission is to craft a detailed, evocative, and highly specific prompt to transform a given product photo.";
    EmptyString;
    "The final image must be a professional-grade product shot. The product should be the clear hero of the image, perfectly integrated into a compelling scene.";
    EmptyString;
    "**User-defined Parameters:**";
    "- **Aspect Ratio:** " ++ Types.aspectRatioValue (Types.aspectRatio settings)
      ++ " (The final composition must adhere to this.)";
    "- **Lighting Style:** " ++ Types.lightingStyleValue (Types.lightingStyle settings);
    "- **Camera Perspective:** "
      ++ Types.cameraPerspectiveValue (Types.cameraPerspective settings);
    EmptyString;
    "**Your Task:**";
    "Synthesize these parameters into a single, masterful prompt. Describe the scene, lighting, and camera work with rich, sensory language.";
    EmptyString;
    "*Example:* For " ++ dq ++ "Studio Lighting," ++ dq
      ++ " instead of a generic phrase, describe it as: " ++ dq
      ++ "A professional studio shot with a large, diffused key light creating soft, flattering highlights, minimal shadows filled in with ambient bounce light, and a subtle rim light to define the product's edges against a clean, seamless background."
      ++ dq;
    EmptyString;
    match styleImage with
    | Some _ => styleReferenceSection
    | None => EmptyString
    end;
    EmptyString;
    "**Final Output Requirement:**";
    "Generate ONLY the final, complete prompt text. Do not include any titles, preambles, or explanations. The output must be ready to be fed directly into the image generation model." ].

Definition imagePart (image : EncodedImage) : Genai.Part :=
  Genai.inlinePart (base64 image) (mimeType image).

(** The optional style image, pushed after the other parts. *)
Definition stylePart (styleImage : option EncodedImage) : list Genai.Part :=
  match styleImage with
  | Some s => [imagePart s]
  | None => []
  end.

(** What a [try] block yields is returned; what it throws goes through
    [handleGeminiError] and is thrown again. *)
Definition catchGemini {A} (attempt : Result A) (context : string)
  : Logged (Result A) :=
  match attempt with
  | Returns a => ret (Returns a)
  | Raises error =>
      e <- handleGeminiError error context ;;
      ret (Raises e)
  end.

Section WithRemote.

Variable ai : Genai.Remote.

(** [generateDescriptivePrompt]. *)
Definition generateDescriptivePrompt (settings : Types.StyleSettings)
  (styleImage : option EncodedImage) : Logged (Result string) :=
  let parts :=
    (Genai.textPart (textPrompt settings styleImage) :: stylePart styleImage)%list in
  catchGemini
    (match ai {| Genai.model := promptGenerationModel;
                 Genai.contents := parts;
                 Genai.responseModalities := None |} with
     | Genai.Throws e => Raises e
     | Genai.Responds response =>
         match Genai.responseText response with
         | Some t =>
             if truthy t then Returns (trim t)
             else Raises (JsError emptyPromptMessage)
         | None => Raises (JsError emptyPromptMessage)
         end
     end)
    "prompt generation".

(** An image part: a part with inline data whose MIME type starts with
    [image/]. *)
Definition isImagePart (part : Genai.Part) : bool :=
  match Genai.inlineData part with
  | Some d =>
      match Genai.mimeType d with
      | Some m => startsWith m "image/"
      | None => false
      end
  | None => false
  end.


(** [`data:${mimeType};base64,${data}`]; a missing [data] prints as
    [undefined]. *)
Definition imageUrl (m : string) (d : Genai.Blob) : string :=
  "data:" ++ m ++ ";base64,"
  ++ match Genai.data d with
     | Some bytes => bytes
     | None => "undefined"
     end.

(** The [for ... of] loop over the parts: the URL of the first image
    part, when there is one.  The test
    [part.inlineData && part.inlineData.mimeType.startsWith('image/')]
    throws a [TypeError] on inline data without MIME type. *)
Fixpoint firstImage (ps : list Genai.Part) : Result (option string) :=
  match ps with
  | [] => Returns None
  | part :: rest =>
      match Genai.inlineData part with
      | Some d =>
          match Genai.mimeType d with
          | Some m =>
              if startsWith m "image/" then Returns (Some (imageUrl m d))
              else firstImage rest
          | None => Raises (typeErrorReading "startsWith")
          end
      | None => firstImage rest
      end
  end.

Definition editRequest (productImage : EncodedImage) (prompt : string)
  (styleImage : option EncodedImage) : Genai.GenerateContentParameters :=
  {| Genai.model := imageEditingModel;
     Genai.contents :=
       ([imagePart productImage; Genai.textPart prompt] ++ stylePart styleImage)%list;
     Genai.responseModalities := Some [Genai.IMAGE; Genai.TEXT] |}.

(** What the search in the answer yields: [response.candidates[0]
    .content.parts] is read without a test, so a first candidate without
    content, or a content without parts, throws a [TypeError]. *)
Definition searchAnswer (response : Genai.GenerateContentResponse)
  : Result (option string) :=
  match Genai.candidates response with
  | Some (first :: _) =>
      match Genai.content first with
      | Some c =>
          match Genai.parts c with
          | Some ps => firstImage ps
          | None => Raises typeErrorNotIterable
          end
      | None => Raises (typeErrorReading "parts")
      end
  | _ => Returns None
  end.

(** [editProductImage]. *)
Definition editProductImage (productImage : EncodedImage) (prompt : string)
  (styleImage : option EncodedImage) : Logged (Result string) :=
  catchGemini
    (match ai (editRequest productImage prompt styleImage) with
     | Genai.Throws e => Raises e
     | Genai.Responds response =>
         match searchAnswer response with
         | Returns (Some url) => Returns url
         | Returns None => Raises (JsError noImageMessage)
         | Raises e => Raises e
         end
     end)
    "image generation".

End WithRemote.

End GeminiService.

(* ================================================================== *)
(** * Numbers *)
(* ================================================================== *)

Open Scope Q_scope.

(** [a > b] on numbers. *)
Definition Qgtb (a b : Q) : bool := negb (Qle_bool a b).

(** A number is falsy exactly when it is zero. *)
Definition Qtruthy (a : Q) : bool := negb (Qeq_bool a 0).

(** [Math.floor]. *)
Definition Math_floor (a : Q) : Z := Qfloor a.

(* ================================================================== *)
(** * react-image-crop, as the modal uses it *)
(* ================================================================== *)

Module ReactImageCrop.

(** The unit tag of a crop: ['%'] or ['px']. *)
Inductive Unit : Type := Percent | Pixel.

(** Modelled from the spec: the [Crop] type of react-image-crop, whose
    declaration is not part of the repository.  It is the CropRegion of
    the specification, a rectangle [{x, y, width, height}] in
    percentage-of-display or in pixel units, with its unit tag; the modal
    reads these four fields and writes [unit: '%']. *)
Record Crop : Type := {
  unit : Unit;
  x : Q;
  y : Q;
  width : Q;
  height : Q
}.

(** The first argument of [makeAspectCrop] as the modal writes it:
    [{ unit, width }]. *)
Record WidthCrop : Type := {
  wunit : Unit;
  wwidth : Q
}.

(** The two functions the modal imports. *)
Class Library : Type := {
  makeAspectCrop : WidthCrop -> Q -> Q -> Q -> Crop;
  centerCrop : Crop -> Q -> Q -> Crop
}.

(** Modelled from the spec: what the unit tag means.  The rectangle, in
    pixels, that a crop denotes on a surface of [W] by [H] pixels: a crop
    in percent gives its numbers as percentages of the surface. *)
Definition onSurface (c : Crop) (W H : Q) : Crop :=
  match unit c with
  | Pixel => c
  | Percent =>
      {| unit := Pixel;
         x := x c * W / 100;
         y := y c * H / 100;
         width := width c * W / 100;
         height := height c * H / 100 |}
  end.

(** The other way round: a rectangle given in pixels on a surface of
    [W] by [H] pixels, with its numbers in the unit [u]. *)
Definition inUnit (u : Unit) (c : Crop) (W H : Q) : Crop :=
  match u with
  | Pixel => c
  | Percent =>
      {| unit := Percent;
         x := x c / W * 100;
         y := y c / H * 100;
         width := width c / W * 100;
         height := height c / H * 100 |}
  end.

(** Modelled from the spec: [makeAspectCrop] of react-image-crop, whose
    source is not part of the repository.  The specification has the
    image-load transition compute the largest rectangle with the target
    aspect ratio that fits within 90% of the image's extent; the share,
    90%, is the [width] of the argument.  The rectangle is placed at the
    origin and returned in the unit of the argument. *)
Definition specMakeAspectCrop (partial : WidthCrop) (aspect W H : Q) : Crop :=
  let share :=
    match wunit partial with
    | Percent => wwidth partial / 100
    | Pixel => wwidth partial / W
    end in
  let boxW := share * W in
  let boxH := share * H in
  let fitted :=
    if Qle_bool (boxW / aspect) boxH
    then {| unit := Pixel; x := 0; y := 0;
            width := boxW; height := boxW / aspect |}
    else {| unit := Pixel; x := 0; y := 0;
            width := boxH * aspect; height := boxH |} in
  inUnit (wunit partial) fitted W H.

(** Modelled from the spec: [centerCrop] of react-image-crop, whose
    source is not part of the repository.  The specification has the
    rectangle centered in the image: the margins on both sides are equal.
    The size and the unit of the crop are kept. *)
Definition specCenterCrop (c : Crop) (W H : Q) : Crop :=
  let p := onSurface c W H in
  inUnit (unit c)
    {| unit := Pixel;
       x := (W - width p) / 2;
       y := (H - height p) / 2;
       width := width p;
       height := height p |}
    W H.

(** Modelled from the spec: the library, with the two functions above. *)
Definition specLibrary : Library :=
  {| makeAspectCrop := specMakeAspectCrop;
     centerCrop := specCenterCrop |}.

End ReactImageCrop.

(* ================================================================== *)
(** * The browser objects the modal touches *)
(* ================================================================== *)

(** [HTMLImageElement]: the natural size of the decoded image and the
    size it is laid out at. *)
Module Img.
Record t : Type := {
  naturalWidth : Q;
  naturalHeight : Q;
  width : Q;
  height : Q
}.
End Img.

(** [{ width, height }], the state [imgSize]. *)
Module Size.
Record t : Type := {
  width : Q;
  height : Q
}.
End Size.

Module Dom.

(** The arguments of [ctx.drawImage(image, sx, sy, sWidth, sHeight,
    dx, dy, dWidth, dHeight)]. *)
Record DrawImage : Type := {
  sx : Q;
  sy : Q;
  sWidth : Q;
  sHeight : Q;
  dx : Q;
  dy : Q;
  dWidth : Q;
  dHeight : Q
}.

(** A canvas: its pixel size and what was drawn on it. *)
Record Canvas : Type := {
  canvasWidth : Z;
  canvasHeight : Z;
  drawn : option DrawImage
}.

(** What [canvas.toBlob] passes to its callback, when it is no [null]. *)
Definition Blob : Type := string.

(** A [FileReader] run: [loadend] with [reader.result], or [error]
    first. *)
Inductive ReaderOutcome : Type :=
| LoadEnd (result : option string)
| ReaderError.

(** What the browser decides during a canvas export of a decoded
    image. *)
Record Browser : Type := {
  getContext2d : bool;
  toBlob : Canvas -> string -> option Blob;
  readAsDataURL : Blob -> ReaderOutcome
}.

(** A canvas without pixels yields no blob (the HTML standard on
    [toBlob]). *)
Definition standardToBlob (b : Browser) : Prop :=
  forall c mimeType,
    canvasWidth c = 0%Z \/ canvasHeight c = 0%Z ->
    toBlob b c mimeType = None.

End Dom.

(* ================================================================== *)
(** * components/ImageCropModal.tsx *)
(* ================================================================== *)

Module ImageCropModal.

Module RC := ReactImageCrop.

Definition contextMessage : string := "Could not get canvas context".
Definition canvasEmptyMessage : string := "Canvas is empty".
Definition readBlobMessage : string := "Failed to read blob as data URL".

Definition scaleX (image : Img.t) : Q :=
  Img.naturalWidth image / Img.width image.

Definition scaleY (image : Img.t) : Q :=
  Img.naturalHeight image / Img.height image.

(** A run of [getCroppedImg]: the canvas it built and how its promise
    settles. *)
Record CropRun : Type := {
  canvas : Dom.Canvas;
  settled : Result EncodedImage
}.

(** [getCroppedImg], on an [img] element whose image has been decoded:
    on such an image [ctx.drawImage] draws and does not throw, so the
    promise is settled by one of the calls of [resolve] and [reject]. *)
Definition getCroppedImg (browser : Dom.Browser) (image : Img.t)
  (crop : RC.Crop) (mimeType : string) : CropRun :=
  let scaleX := scaleX image in
  let scaleY := scaleY image in
  let sized :=
    {| Dom.canvasWidth := Math_floor (RC.width crop * scaleX);
       Dom.canvasHeight := Math_floor (RC.height crop * scaleY);
       Dom.drawn := None |} in
  if negb (Dom.getContext2d browser) then
    {| canvas := sized; settled := Raises (JsError contextMessage) |}
  else
    let cropX := RC.x crop * scaleX in
    let cropY := RC.y crop * scaleY in
    let cropWidth := RC.width crop * scaleX in
    let cropHeight := RC.height crop * scaleY in
    let painted :=
      {| Dom.canvasWidth := Dom.canvasWidth sized;
         Dom.canvasHeight := Dom.canvasHeight sized;
         Dom.drawn :=
           Some {| Dom.sx := cropX; Dom.sy := cropY;
                   Dom.sWidth := cropWidth; Dom.sHeight := cropHeight;
                   Dom.dx := 0; Dom.dy := 0;
                   Dom.dWidth := cropWidth; Dom.dHeight := cropHeight |} |} in
    {| canvas := painted;
       settled :=
         match Dom.toBlob browser painted mimeType with
         | None => Raises (JsError canvasEmptyMessage)
         | Some blob =>
             match Dom.readAsDataURL browser blob with
             | Dom.ReaderError => Raises NonError
             | Dom.LoadEnd (Some result) =>
                 if truthy result then
                   Returns {| base64 := nth 1 (split "," result) EmptyString;
                              mimeType := mimeType |}
                 else Raises (JsError readBlobMessage)
             | Dom.LoadEnd None => Raises (JsError readBlobMessage)
             end
         end |}.

(** The modal: its props, its React state, and the [img] element its
    ref holds. *)
Record Modal : Type := {
  imageSrc : string;
  mimeType : string;
  aspect : Q;
  crop : option RC.Crop;
  isSaving : bool;
  scale : Q;
  imgSize : Size.t;
  imgRef : option Img.t
}.

Definition setAspect (a : Q) (m : Modal) : Modal :=
  {| imageSrc := imageSrc m; mimeType := mimeType m; aspect := a;
     crop := crop m; isSaving := isSaving m; scale := scale m;
     imgSize := imgSize m; imgRef := imgRef m |}.

Definition setCrop (c : option RC.Crop) (m : Modal) : Modal :=
  {| imageSrc := imageSrc m; mimeType := mimeType m; aspect := aspect m;
     crop := c; isSaving := isSaving m; scale := scale m;
     imgSize := imgSize m; imgRef := imgRef m |}.

Definition setIsSaving (b : bool) (m : Modal) : Modal :=
  {| imageSrc := imageSrc m; mimeType := mimeType m; aspect := aspect m;
     crop := crop m; isSaving := b; scale := scale m;
     imgSize := imgSize m; imgRef := imgRef m |}.

Definition setScale (v : Q) (m : Modal) : Modal :=
  {| imageSrc := imageSrc m; mimeType := mimeType m; aspect := aspect m;
     crop := crop m; isSaving := isSaving m; scale := v;
     imgSize := imgSize m; imgRef := imgRef m |}.

Definition setImgSize (sz : Size.t) (m : Modal) : Modal :=
  {| imageSrc := imageSrc m; mimeType := mimeType m; aspect := aspect m;
     crop := crop m; isSaving := isSaving m; scale := scale m;
     imgSize := sz; imgRef := imgRef m |}.

Definition setImgRef (r : option Img.t) (m : Modal) : Modal :=
  {| imageSrc := imageSrc m; mimeType := mimeType m; aspect := aspect m;
     crop := crop m; isSaving := isSaving m; scale := scale m;
     imgSize := imgSize m; imgRef := r |}.

(** The state of a modal that has just been opened. *)
Definition opened (src mime : string) (a : Q) (img : option Img.t) : Modal :=
  {| imageSrc := src; mimeType := mime; aspect := a;
     crop := None; isSaving := false; scale := 1;
     imgSize := {| Size.width := 0; Size.height := 0 |};
     imgRef := img |}.

(** The [style] of the [img]: no explicit size before the load, the
    measured size times the zoom after it. *)
Definition imgStyle (m : Modal) : option Size.t :=
  if Qtruthy (Size.width (imgSize m)) then
    Some {| Size.width := Size.width (imgSize m) * scale m;
            Size.height := Size.height (imgSize m) * scale m |}
  else None.

(** The browser lays the element out at the size its style gives. *)
Definition layout (style : option Size.t) (image : Img.t) : Img.t :=
  match style with
  | Some sz =>
      {| Img.naturalWidth := Img.naturalWidth image;
         Img.naturalHeight := Img.naturalHeight image;
         Img.width := Size.width sz;
         Img.height := Size.height sz |}
  | None => image
  end.

(** A render after a state change. *)
Definition render (m : Modal) : Modal :=
  setImgRef (option_map (layout (imgStyle m)) (imgRef m)) m.

Section WithLibrary.

Context {lib : RC.Library}.

(** [onImageLoad], on the event target [e]. *)
Definition onImageLoad (e : Img.t) (m : Modal) : Modal :=
  let m1 :=
    setImgSize {| Size.width := Img.width e; Size.height := Img.height e |} m in
  if Qgtb (Img.naturalWidth e) 0 && Qgtb (Img.naturalHeight e) 0 then
    let newCrop :=
      RC.centerCrop
        (RC.makeAspectCrop
           {| RC.wunit := RC.Percent; RC.wwidth := 90 |}
           (aspect m1)
           (Img.naturalWidth e)
           (Img.naturalHeight e))
        (Img.naturalWidth e)
        (Img.naturalHeight e) in
    setCrop (Some newCrop) m1
  else m1.

(** The body of the effect that depends on [aspect]. *)
Definition aspectEffect (m : Modal) : Modal :=
  match imgRef m with
  | Some current =>
      if Qgtb (Img.naturalWidth current) 0
         && Qgtb (Img.naturalHeight current) 0 then
        let newCrop :=
          RC.centerCrop
            (RC.makeAspectCrop
               {| RC.wunit := RC.Percent; RC.wwidth := 90 |}
               (aspect m)
               (Img.naturalWidth current)
               (Img.naturalHeight current))
            (Img.naturalWidth current)
            (Img.naturalHeight current) in
        setCrop (Some newCrop) m
      else m
  | None => m
  end.

(** The [onChange] of [ReactCrop]: the second argument is stored. *)
Definition onCropChange (percentCrop : RC.Crop) (m : Modal) : Modal :=
  setCrop (Some percentCrop) m.

(** The [onChange] of the zoom range input. *)
Definition onZoomChange (value : Q) (m : Modal) : Modal :=
  setScale value m.

(** [handleSaveClick]: the modal afterwards and the image passed to
    [onSave], when it is called. *)
Definition handleSaveClick (browser : Dom.Browser) (m : Modal)
  : Logged (Modal * option EncodedImage) :=
  match imgRef m, crop m with
  | Some current, Some c =>
      if Qtruthy (RC.width c) && Qtruthy (RC.height c) then
        let saving := setIsSaving true m in
        match settled (getCroppedImg browser current c (mimeType m)) with
        | Returns croppedImage =>
            ret (setIsSaving false saving, Some croppedImage)
        | Raises e =>
            consoleError "Cropping failed" ;;;
            ret (setIsSaving false saving, None)
        end
      else ret (m, None)
  | _, _ => ret (m, None)
  end.

(** ** Events

    What happens to the modal, render included, on each event. *)

Inductive Event : Type :=
| Mounted
| ImageLoaded (e : Img.t)
| AspectProp (newAspect : Q)
| CropDragged (percentCrop : RC.Crop)
| ZoomMoved (value : Q).

Definition step (m : Modal) (ev : Event) : Modal :=
  match ev with
  | Mounted => render (aspectEffect m)
  | ImageLoaded e => render (onImageLoad e (setImgRef (Some e) m))
  | AspectProp a =>
      if Qeq_bool a (aspect m) then render m
      else render (aspectEffect (setAspect a m))
  | CropDragged c => render (onCropChange c m)
  | ZoomMoved v => render (onZoomChange v m)
  end.

Definition run (m : Modal) (evs : list Event) : Modal :=
  fold_left step evs m.

End WithLibrary.

End ImageCropModal.

(* ================================================================== *)
(** * App.tsx *)
(* ================================================================== *)

(** [{ dataUrl, mimeType }], the uploaded product image before the crop. *)
Module Original.
Record t : Type := {
  dataUrl : string;
  mimeType : string
}.
End Original.

Module App.

Definition MAX_FILE_SIZE_MB : Z := 10.
Definition MAX_FILE_SIZE_BYTES : Z := MAX_FILE_SIZE_MB * 1024 * 1024.
Definition SUPPORTED_MIME_TYPES : list string :=
  ["image/jpeg"; "image/png"; "image/webp"].

(** [SUPPORTED_MIME_TYPES.includes(t)]. *)
Definition includesType (types : list string) (t : string) : bool :=
  existsb (String.eqb t) types.

(** A number inside a template literal. *)
Definition numberText (n : Z) : string :=
  DecimalString.NilZero.string_of_int (Z.to_int n).

(** The second argument of [handleFileUpload]. *)
Inductive UploadType : Type := product | style.

Definition uploadTypeText (t : UploadType) : string :=
  match t with
  | product => "product"
  | style => "style"
  end.

(** The React state of [App]. *)
Record State : Type := {
  productImage : option EncodedImage;
  originalProductImage : option Original.t;
  isCropModalOpen : bool;
  styleReferenceImage : option EncodedImage;
  aspectRatio : Types.AspectRatio;
  lightingStyle : Types.LightingStyle;
  cameraPerspective : Types.CameraPerspective;
  prompt : string;
  generatedImage : option string;
  isGeneratingPrompt : bool;
  isGeneratingImage : bool;
  error : option string
}.

Definition setProductImage (v : option EncodedImage) (s : State) : State :=
  {| productImage := v; originalProductImage := originalProductImage s;
     isCropModalOpen := isCropModalOpen s;
     styleReferenceImage := styleReferenceImage s;
     aspectRatio := aspectRatio s; lightingStyle := lightingStyle s;
     cameraPerspective := cameraPerspective s; prompt := prompt s;
     generatedImage := generatedImage s;
     isGeneratingPrompt := isGeneratingPrompt s;
     isGeneratingImage := isGeneratingImage s; error := error s |}.

Definition setOriginalProductImage (v : option Original.t) (s : State) : State :=
  {| productImage := productImage s; originalProductImage := v;
     isCropModalOpen := isCropModalOpen s;
     styleReferenceImage := styleReferenceImage s;
     aspectRatio := aspectRatio s; lightingStyle := lightingStyle s;
     cameraPerspective := cameraPerspective s; prompt := prompt s;
     generatedImage := generatedImage s;
     isGeneratingPrompt := isGeneratingPrompt s;
     isGeneratingImage := isGeneratingImage s; error := error s |}.

Definition setIsCropModalOpen (v : bool) (s : State) : State :=
  {| productImage := productImage s;
     originalProductImage := originalProductImage s; isCropModalOpen := v;
     styleReferenceImage := styleReferenceImage s;
     aspectRatio := aspectRatio s; lightingStyle := lightingStyle s;
     cameraPerspective := cameraPerspective s; prompt := prompt s;
     generatedImage := generatedImage s;
     isGeneratingPrompt := isGeneratingPrompt s;
     isGeneratingImage := isGeneratingImage s; error := error s |}.

Definition setStyleReferenceImage (v : option EncodedImage) (s : State) : State :=
  {| productImage := productImage s;
     originalProductImage := originalProductImage s;
     isCropModalOpen := isCropModalOpen s; styleReferenceImage := v;
     aspectRatio := aspectRatio s; lightingStyle := lightingStyle s;
     cameraPerspective := cameraPerspective s; prompt := prompt s;
     generatedImage := generatedImage s;
     isGeneratingPrompt := isGeneratingPrompt s;
     isGeneratingImage := isGeneratingImage s; error := error s |}.

Definition setAspectRatio (v : Types.AspectRatio) (s : State) : State :=
  {| productImage := productImage s;
     originalProductImage := originalProductImage s;
     isCropModalOpen := isCropModalOpen s;
     styleReferenceImage := styleReferenceImage s; aspectRatio := v;
     lightingStyle := lightingStyle s;
     cameraPerspective := cameraPerspective s; prompt := prompt s;
     generatedImage := generatedImage s;
     isGeneratingPrompt := isGeneratingPrompt s;
     isGeneratingImage := isGeneratingImage s; error := error s |}.

Definition setLightingStyle (v : Types.LightingStyle) (s : State) : State :=
  {| productImage := productImage s;
     originalProductImage := originalProductImage s;
     isCropModalOpen := isCropModalOpen s;
     styleReferenceImage := styleReferenceImage s;
     aspectRatio := aspectRatio s; lightingStyle := v;
     cameraPerspective := cameraPerspective s; prompt := prompt s;
     generatedImage := generatedImage s;
     isGeneratingPrompt := isGeneratingPrompt s;
     isGeneratingImage := isGeneratingImage s; error := error s |}.

Definition setCameraPerspective (v : Types.CameraPerspective) (s : State) : State :=
  {| productImage := productImage s;
     originalProductImage := originalProductImage s;
     isCropModalOpen := isCropModalOpen s;
     styleReferenceImage := styleReferenceImage s;
     aspectRatio := aspectRatio s; lightingStyle := lightingStyle s;
     cameraPerspective := v; prompt := prompt s;
     generatedImage := generatedImage s;
     isGeneratingPrompt := isGeneratingPrompt s;
     isGeneratingImage := isGeneratingImage s; error := error s |}.

Definition setPrompt (v : string) (s : State) : State :=
  {| productImage := productImage s;
     originalProductImage := originalProductImage s;
     isCropModalOpen := isCropModalOpen s;
     styleReferenceImage := styleReferenceImage s;
     aspectRatio := aspectRatio s; lightingStyle := lightingStyle s;
     cameraPerspective := cameraPerspective s; prompt := v;
     generatedImage := generatedImage s;
     isGeneratingPrompt := isGeneratingPrompt s;
     isGeneratingImage := isGeneratingImage s; error := error s |}.

Definition setGeneratedImage (v : option string) (s : State) : State :=
  {| productImage := productImage s;
     originalProductImage := originalProductImage s;
     isCropModalOpen := isCropModalOpen s;
     styleReferenceImage := styleReferenceImage s;
     aspectRatio := aspectRatio s; lightingStyle := lightingStyle s;
     cameraPerspective := cameraPerspective s; prompt := prompt s;
     generatedImage := v; isGeneratingPrompt := isGeneratingPrompt s;
     isGeneratingImage := isGeneratingImage s; error := error s |}.

Definition setIsGeneratingPrompt (v : bool) (s : State) : State :=
  {| productImage := productImage s;
     originalProductImage := originalProductImage s;
     isCropModalOpen := isCropModalOpen s;
     styleReferenceImage := styleReferenceImage s;
     aspectRatio := aspectRatio s; lightingStyle := lightingStyle s;
     cameraPerspective := cameraPerspective s; prompt := prompt s;
     generatedImage := generatedImage s; isGeneratingPrompt := v;
     isGeneratingImage := isGeneratingImage s; error := error s |}.

Definition setIsGeneratingImage (v : bool) (s : State) : State :=
  {| productImage := productImage s;
     originalProductImage := originalProductImage s;
     isCropModalOpen := isCropModalOpen s;
     styleReferenceImage := styleReferenceImage s;
     aspectRatio := aspectRatio s; lightingStyle := lightingStyle s;
     cameraPerspective := cameraPerspective s; prompt := prompt s;
     generatedImage := generatedImage s;
     isGeneratingPrompt := isGeneratingPrompt s; isGeneratingImage := v;
     error := error s |}.

Definition setError (v : option string) (s : State) : State :=
  {| productImage := productImage s;
     originalProductImage := originalProductImage s;
     isCropModalOpen := isCropModalOpen s;
     styleReferenceImage := styleReferenceImage s;
     aspectRatio := aspectRatio s; lightingStyle := lightingStyle s;
     cameraPerspective := cameraPerspective s; prompt := prompt s;
     generatedImage := generatedImage s;
     isGeneratingPrompt := isGeneratingPrompt s;
     isGeneratingImage := isGeneratingImage s; error := v |}.

(** The state of a freshly mounted [App]. *)
Definition initial : State :=
  {| productImage := None; originalProductImage := None;
     isCropModalOpen := false; styleReferenceImage := None;
     aspectRatio := Types.SQUARE; lightingStyle := Types.STUDIO;
     cameraPerspective := Types.EYE_LEVEL; prompt := EmptyString;
     generatedImage := None; isGeneratingPrompt := false;
     isGeneratingImage := false; error := None |}.

Definition unsupportedTypeMessage : string :=
  "Unsupported file type. Please upload a JPEG, PNG, or WEBP image.".

Definition tooLargeMessage : string :=
  "File is too large. Please upload an image smaller than "
  ++ numberText MAX_FILE_SIZE_MB ++ "MB.".

Definition loadErrorMessage (t : UploadType) (e : Thrown) : string :=
  "Error loading " ++ uploadTypeText t ++ " image: " ++ messageText e
  ++ ". Please try a different file.".

(** [handleFileUpload]. *)
Definition handleFileUpload (file : GeminiService.File) (t : UploadType)
  (s : State) : Logged State :=
  let s0 := setError None s in
  if negb (includesType SUPPORTED_MIME_TYPES (GeminiService.type file)) then
    ret (setError (Some unsupportedTypeMessage) s0)
  else if (GeminiService.size file >? MAX_FILE_SIZE_BYTES)%Z then
    ret (setError (Some tooLargeMessage) s0)
  else
    let attempt : Result State :=
      match t with
      | product =>
          match GeminiService.fileToBase64 file with
          | Returns image =>
              Returns
                (setIsCropModalOpen true
                   (setProductImage None
                      (setOriginalProductImage
                         (Some {| Original.dataUrl :=
                                    "data:" ++ mimeType image ++ ";base64,"
                                    ++ base64 image;
                                  Original.mimeType := mimeType image |})
                         s0)))
          | Raises e => Raises e
          end
      | style =>
          match GeminiService.fileToBase64 file with
          | Returns image =>
              Returns
                (setStyleReferenceImage
                   (Some {| base64 := base64 image;
                            mimeType := mimeType image |})
                   s0)
          | Raises e => Raises e
          end
      end in
    match attempt with
    | Returns s1 => ret s1
    | Raises err =>
        consoleError ("Failed to process " ++ uploadTypeText t ++ " image:") ;;;
        ret (setError (Some (loadErrorMessage t err)) s0)
    end.

(** [handleCropSave]. *)
Definition handleCropSave (croppedImage : EncodedImage) (s : State) : State :=
  setIsCropModalOpen false (setProductImage (Some croppedImage) s).

(** [handleClearStyleImage]. *)
Definition handleClearStyleImage (s : State) : State :=
  setStyleReferenceImage None s.

Definition unknownPromptMessage : string :=
  "An unknown error occurred while generating the prompt.".

Definition unknownImageMessage : string :=
  "An unknown error occurred while generating the image.".

Definition missingInputMessage : string :=
  "Please upload and crop a product image, and ensure a prompt is generated.".

Section WithRemote.

Variable ai : Genai.Remote.

(** [updatePrompt], the body of the effect on the settings and the
    style image. *)
Definition updatePrompt (s : State) : Logged State :=
  let s0 := setError None (setIsGeneratingPrompt true s) in
  r <- GeminiService.generateDescriptivePrompt ai
         {| Types.aspectRatio := aspectRatio s;
            Types.lightingStyle := lightingStyle s;
            Types.cameraPerspective := cameraPerspective s |}
         (styleReferenceImage s) ;;
  match r with
  | Returns newPrompt =>
      ret (setIsGeneratingPrompt false (setPrompt newPrompt s0))
  | Raises err =>
      consoleError "Prompt generation failed:" ;;;
      ret (setIsGeneratingPrompt false
             (setError (Some (messageOr err unknownPromptMessage)) s0))
  end.

(** [handleGenerateImage]. *)
Definition handleGenerateImage (s : State) : Logged State :=
  match productImage s with
  | Some image =>
      if truthy (prompt s) then
        let s0 :=
          setGeneratedImage None
            (setError None (setIsGeneratingImage true s)) in
        r <- GeminiService.editProductImage ai image (prompt s)
               (styleReferenceImage s) ;;
        match r with
        | Returns resultImage =>
            ret (setIsGeneratingImage false
                   (setGeneratedImage (Some resultImage) s0))
        | Raises err =>
            consoleError "Image generation failed:" ;;;
            ret (setIsGeneratingImage false
                   (setError (Some (messageOr err unknownImageMessage)) s0))
        end
      else ret (setError (Some missingInputMessage) s)
  | None => ret (setError (Some missingInputMessage) s)
  end.

End WithRemote.

(** [getAspectRatioValue]. *)
Definition getAspectRatioValue (ar : Types.AspectRatio) : Q :=
  match ar with
  | Types.SQUARE => 1 / 1
  | Types.PORTRAIT => 3 / 4
  | Types.LANDSCAPE => 16 / 9
  end.

(** The banner: shown when [error] is truthy, with [error] as its text. *)
Definition banner (s : State) : option string :=
  match error s with
  | Some text => if truthy text then Some text else None
  | None => None
  end.

(** The dismiss button of the banner. *)
Definition dismissError (s : State) : State := setError None s.

(** The result pane shows the generated image when there is one and no
    generation is running. *)
Definition displayedResult (s : State) : option string :=
  if isGeneratingImage s then None else generatedImage s.

(** What [handleDownloadImage] hands to the browser: the [href] and the
    [download] name of the link it clicks. *)
Record Download : Type := {
  href : string;
  download : string
}.

(** [handleDownloadImage]: nothing without a generated image. *)
Definition handleDownloadImage (s : State) : option Download :=
  match generatedImage s with
  | Some url =>
      if truthy url then
        Some {| href := url; download := "ai-photo-studio-result.png" |}
      else None
  | None => None
  end.

(** Whether [handleFileUpload] reaches [setStyleReferenceImage]: a style
    upload that passes the gate and is read. *)
Definition setsStyleReference (file : GeminiService.File) (t : UploadType)
  : bool :=
  match t with
  | style =>
      includesType SUPPORTED_MIME_TYPES (GeminiService.type file)
      && negb (GeminiService.size file >? MAX_FILE_SIZE_BYTES)%Z
      && match GeminiService.readAsDataURL file with
         | Some _ => true
         | None => false
         end
  | product => false
  end.

(** An upload with the effect that follows it.  The prompt effect
    depends on [aspectRatio], [lightingStyle], [cameraPerspective] and
    [styleReferenceImage] and runs after a render in which one of them
    has changed; the object [setStyleReferenceImage] is given is a new one,
    so the effect runs after every upload that sets it, and after no
    other. *)
Definition uploadAndEffect (ai : Genai.Remote) (file : GeminiService.File)
  (t : UploadType) (s : State) : Logged State :=
  uploaded <- handleFileUpload file t s ;;
  if setsStyleReference file t then updatePrompt ai uploaded
  else ret uploaded.

(** The [disabled] attribute of the generate button. *)
Definition generateDisabled (s : State) : bool :=
  isGeneratingImage s
  || match productImage s with Some _ => false | None => true end.

End App.

(* ================================================================== *)
(** * The application with its crop modal *)
(* ================================================================== *)

Module Studio.

(** The state of [App] and, while the modal is mounted, the modal. *)
Record World : Type := {
  app : App.State;
  modal : option ImageCropModal.Modal
}.

(** A click on the save button of the modal: [onSave] is
    [handleCropSave], which closes the modal. *)
Definition clickSave (browser : Dom.Browser) (w : World) : Logged World :=
  match modal w with
  | Some m =>
      r <- ImageCropModal.handleSaveClick browser m ;;
      match r with
      | (_, Some croppedImage) =>
          ret {| app := App.handleCropSave croppedImage (app w);
                 modal := None |}
      | (m', None) => ret {| app := app w; modal := Some m' |}
      end
  | None => ret w
  end.

(** The [onClose] of the modal, on its close and cancel buttons. *)
Definition closeModal (w : World) : World :=
  {| app := App.setIsCropModalOpen false (app w); modal := None |}.

Section WithLibrary.

Context {lib : ReactImageCrop.Library}.

(** The render of [App] that mounts the modal, on the [img] element the
    browser creates for it: there is a modal when [isCropModalOpen] is set
    and there is an original product image; the effect on [aspect] runs
    once after the mount. *)
Definition mountModal (img : Img.t) (s : App.State) : World :=
  {| app := s;
     modal :=
       if App.isCropModalOpen s then
         match App.originalProductImage s with
         | Some original =>
             Some (ImageCropModal.step
                     (ImageCropModal.opened
                        (Original.dataUrl original)
                        (Original.mimeType original)
                        (App.getAspectRatioValue (App.aspectRatio s))
                        (Some img))
                     ImageCropModal.Mounted)
         | None => None
         end
       else None |}.

(** Events of the modal, when it is mounted. *)
Definition modalEvents (evs : list ImageCropModal.Event) (w : World) : World :=
  {| app := app w;
     modal := option_map (fun m => ImageCropModal.run m evs) (modal w) |}.

End WithLibrary.

End Studio.

(* ================================================================== *)
(** * Shapes of strings the statements speak of *)
(* ================================================================== *)

Module Shape.

(** No comma in the string. *)
Fixpoint noComma (s : string) : bool :=
  match s with
  | EmptyString => true
  | String c rest => negb (Ascii.eqb c ",") && noComma rest
  end.

(** Nothing but white space in the string. *)
Fixpoint allSpace (s : string) : bool :=
  match s with
  | EmptyString => true
  | String c rest => isSpace c && allSpace rest
  end.

(** Some candidate of the answer holds an image part. *)
Definition holdsImage (response : Genai.GenerateContentResponse) : bool :=
  match Genai.candidates response with
  | Some cs =>
      existsb
        (fun c =>
           match Genai.content c with
           | Some {| Genai.parts := Some ps |} =>
               existsb GeminiService.isImagePart ps
           | _ => false
           end)
        cs
  | None => false
  end.

(** An event that neither loads the image nor drags the crop. *)
Definition quiet (ev : ImageCropModal.Event) : bool :=
  match ev with
  | ImageCropModal.ImageLoaded _ => false
  | ImageCropModal.CropDragged _ => false
  | _ => true
  end.

(** An [img] element whose image has no positive natural size, or no
    element at all. *)
Definition notLoaded (ref : option Img.t) : Prop :=
  match ref with
  | Some img => ~ (0 < Img.naturalWidth img /\ 0 < Img.naturalHeight img)
  | None => True
  end.

End Shape.

(* ================================================================== *)
(** * Sample inputs *)
(* ================================================================== *)

Module Samples.

Definition product : EncodedImage :=
  {| base64 := "UFJPRA=="; mimeType := "image/png" |}.

(** A response whose first candidate holds a text part and then an
    image part. *)
Definition imageAnswer : Genai.GenerateContentResponse :=
  {| Genai.responseText := Some "Here is your image.";
     Genai.candidates :=
       Some [ {| Genai.content :=
                   Some {| Genai.parts :=
                             Some [ Genai.textPart "Here is your image.";
                                    Genai.inlinePart "SU1H" "image/png" ] |} |} ] |}.

(** A response with a candidate and zero image parts. *)
Definition textAnswer : Genai.GenerateContentResponse :=
  {| Genai.responseText := Some "I cannot edit this image.";
     Genai.candidates :=
       Some [ {| Genai.content :=
                   Some {| Genai.parts :=
                             Some [ Genai.textPart "I cannot edit this image." ] |} |} ] |}.

Definition imageRemote : Genai.Remote := fun _ => Genai.Responds imageAnswer.
Definition textRemote : Genai.Remote := fun _ => Genai.Responds textAnswer.

(** A JPEG of 5 MiB and a PNG of 15 MiB. *)
Definition jpeg5MiB : GeminiService.File :=
  {| GeminiService.type := "image/jpeg";
     GeminiService.size := 5 * 1024 * 1024;
     GeminiService.readAsDataURL := Some "data:image/jpeg;base64,/9j/4AAQ" |}.

Definition png15MiB : GeminiService.File :=
  {| GeminiService.type := "image/png";
     GeminiService.size := 15 * 1024 * 1024;
     GeminiService.readAsDataURL := Some "data:image/png;base64,iVBORw0K" |}.

(** The application after a first successful generation. *)
Definition afterGeneration : App.State :=
  {| App.productImage := Some product;
     App.originalProductImage :=
       Some {| Original.dataUrl := "data:image/png;base64,T1JJRw==";
               Original.mimeType := "image/png" |};
     App.isCropModalOpen := false;
     App.styleReferenceImage := None;
     App.aspectRatio := Types.SQUARE;
     App.lightingStyle := Types.STUDIO;
     App.cameraPerspective := Types.EYE_LEVEL;
     App.prompt := "a studio shot";
     App.generatedImage := Some "data:image/png;base64,T0xE";
     App.isGeneratingPrompt := false;
     App.isGeneratingImage := false;
     App.error := None |}.

(** An image of 1000 by 1000 pixels, laid out at 500 by 500 when it
    loads. *)
Definition square1000 : Img.t :=
  {| Img.naturalWidth := 1000; Img.naturalHeight := 1000;
     Img.width := 500; Img.height := 500 |}.

(** The [img] element before its image has loaded. *)
Definition blankImg : Img.t :=
  {| Img.naturalWidth := 0; Img.naturalHeight := 0;
     Img.width := 0; Img.height := 0 |}.

(** The modal, just opened on a PNG with the square aspect. *)
Definition openedModal : ImageCropModal.Modal :=
  ImageCropModal.opened "data:image/png;base64,T1JJRw==" "image/png" 1
    (Some blankImg).

(** The crop that covers the whole image, as [ReactCrop] reports it in
    its second argument. *)
Definition fullPercentCrop : ReactImageCrop.Crop :=
  {| ReactImageCrop.unit := ReactImageCrop.Percent;
     ReactImageCrop.x := 0; ReactImageCrop.y := 0;
     ReactImageCrop.width := 100; ReactImageCrop.height := 100 |}.

(** The modal after its image has loaded. *)
Definition loadedModal : ImageCropModal.Modal :=
  ImageCropModal.step (lib := ReactImageCrop.specLibrary) openedModal
    (ImageCropModal.ImageLoaded square1000).

(** A browser that encodes every canvas that has pixels. *)
Definition standardBrowser : Dom.Browser :=
  {| Dom.getContext2d := true;
     Dom.toBlob := fun c _ =>
       if ((Dom.canvasWidth c =? 0) || (Dom.canvasHeight c =? 0))%Z
       then None else Some "PNG";
     Dom.readAsDataURL := fun _ =>
       Dom.LoadEnd (Some "data:image/png;base64,Q1JPUA==") |}.

(** A browser whose encoder yields nothing. *)
Definition failingEncoder : Dom.Browser :=
  {| Dom.getContext2d := true;
     Dom.toBlob := fun _ _ => None;
     Dom.readAsDataURL := fun _ => Dom.LoadEnd None |}.

(** A browser without a 2D context. *)
Definition noContextBrowser : Dom.Browser :=
  {| Dom.getContext2d := false;
     Dom.toBlob := fun _ _ => None;
     Dom.readAsDataURL := fun _ => Dom.LoadEnd None |}.

(** A crop a quarter of a unit wide, and one of 50 by 50. *)
Definition thinCrop : ReactImageCrop.Crop :=
  {| ReactImageCrop.unit := ReactImageCrop.Percent;
     ReactImageCrop.x := 0; ReactImageCrop.y := 0;
     ReactImageCrop.width := 1 # 4; ReactImageCrop.height := 50 |}.

Definition halfCrop : ReactImageCrop.Crop :=
  {| ReactImageCrop.unit := ReactImageCrop.Percent;
     ReactImageCrop.x := 0; ReactImageCrop.y := 0;
     ReactImageCrop.width := 50; ReactImageCrop.height := 50 |}.

(** The application with the crop modal open on a loaded image. *)
Definition croppingWorld : Studio.World :=
  {| Studio.app := valueOf (App.handleFileUpload jpeg5MiB App.product App.initial);
     Studio.modal := Some loadedModal |}.

(** An answer with the empty text, and one with white space around its
    text. *)
Definition emptyAnswer : Genai.GenerateContentResponse :=
  {| Genai.responseText := Some EmptyString; Genai.candidates := None |}.

Definition paddedAnswer : Genai.GenerateContentResponse :=
  {| Genai.responseText := Some "  A moody studio shot. ";
     Genai.candidates := None |}.

Definition blankAnswer : Genai.GenerateContentResponse :=
  {| Genai.responseText := Some "   "; Genai.candidates := None |}.

Definition emptyRemote : Genai.Remote := fun _ => Genai.Responds emptyAnswer.
Definition paddedRemote : Genai.Remote := fun _ => Genai.Responds paddedAnswer.
Definition blankRemote : Genai.Remote := fun _ => Genai.Responds blankAnswer.

(** A remote service that turns the key down. *)
Definition keyRemote : Genai.Remote :=
  fun _ => Genai.Throws (JsError "API key not valid. Please pass a valid API key.").

Definition studioSettings : Types.StyleSettings :=
  {| Types.aspectRatio := Types.SQUARE;
     Types.lightingStyle := Types.STUDIO;
     Types.cameraPerspective := Types.EYE_LEVEL |}.

(** A JPEG that passes the gate and cannot be read. *)
Definition unreadableJpeg : GeminiService.File :=
  {| GeminiService.type := "image/jpeg";
     GeminiService.size := 1024;
     GeminiService.readAsDataURL := None |}.

(** A crop in displayed pixels over the whole of [square1000]. *)
Definition fullPixelCrop : ReactImageCrop.Crop :=
  {| ReactImageCrop.unit := ReactImageCrop.Pixel;
     ReactImageCrop.x := 0; ReactImageCrop.y := 0;
     ReactImageCrop.width := 500; ReactImageCrop.height := 500 |}.

(** An answer whose second candidate alone holds an image. *)
Definition secondCandidateAnswer : Genai.GenerateContentResponse :=
  {| Genai.responseText := None;
     Genai.candidates :=
       Some [ {| Genai.content :=
                   Some {| Genai.parts :=
                             Some [ Genai.textPart "Option one." ] |} |};
              {| Genai.content :=
                   Some {| Genai.parts :=
                             Some [ Genai.inlinePart "SU1H" "image/png" ] |} |} ] |}.

Definition secondCandidateRemote : Genai.Remote :=
  fun _ => Genai.Responds secondCandidateAnswer.

(** The first candidate of [secondCandidateAnswer] alone. *)
Definition firstCandidateAnswer : Genai.GenerateContentResponse :=
  {| Genai.responseText := None;
     Genai.candidates :=
       Some [ {| Genai.content :=
                   Some {| Genai.parts :=
                             Some [ Genai.textPart "Option one." ] |} |} ] |}.

Definition firstCandidateRemote : Genai.Remote :=
  fun _ => Genai.Responds firstCandidateAnswer.



End Samples.

(* ================================================================== *)
(** * Properties of the generation client *)
(* ================================================================== *)

Module GeminiServiceFacts.

Import GeminiService.




(** The error of a response without image passes [handleGeminiError]
    as it is. *)
Lemma handleGeminiError_noImage (context : string) :
  handleGeminiError (JsError noImageMessage) context
  = (["Error during " ++ context ++ ":"], JsError noImageMessage).
Proof. reflexivity. Qed.

(** [handleGeminiError] always yields an [Error]. *)
Lemma handleGeminiError_message (e : Thrown) (context : string) :
  exists m, valueOf (handleGeminiError e context) = JsError m.
Proof.
  unfold handleGeminiError, valueOf; simpl.
  destruct e as [m|]; [|eauto].
  destruct (includes _ "api key not valid"); [eauto|].
  destruct (includes _ "rate limit"); [eauto|].
  destruct (includes _ "did not return an image"); eauto.
Qed.

End GeminiServiceFacts.

(* ================================================================== *)
(** * Properties of the upload gate and of the handlers of [App] *)
(* ================================================================== *)

Module AppFacts.

Import App.

Lemma includesType_supported (t : string) :
  includesType SUPPORTED_MIME_TYPES t = true
  <-> t = "image/jpeg" \/ t = "image/png" \/ t = "image/webp".
Proof.
  unfold includesType, SUPPORTED_MIME_TYPES; simpl.
  rewrite !orb_true_iff, !String.eqb_eq. intuition discriminate.
Qed.

Lemma tooLarge_iff (n : Z) :
  (n >? MAX_FILE_SIZE_BYTES)%Z = false <-> (n <= 10 * 1024 * 1024)%Z.
Proof.
  unfold MAX_FILE_SIZE_BYTES, MAX_FILE_SIZE_MB.
  destruct (Z.gtb_spec n (10 * 1024 * 1024)); split; intros; try reflexivity;
    try discriminate; lia.
Qed.

(** Every aspect ratio the application offers is a positive number. *)
Lemma getAspectRatioValue_positive (ar : Types.AspectRatio) :
  0 < getAspectRatioValue ar.
Proof. destruct ar; reflexivity. Qed.

(** The two early returns of [handleFileUpload]. *)
Lemma handleFileUpload_unsupported (file : GeminiService.File)
  (t : UploadType) (s : State) :
  includesType SUPPORTED_MIME_TYPES (GeminiService.type file) = false ->
  handleFileUpload file t s
  = ([], setError (Some unsupportedTypeMessage) (setError None s)).
Proof. intros H. unfold handleFileUpload. rewrite H. reflexivity. Qed.

Lemma handleFileUpload_tooLarge (file : GeminiService.File)
  (t : UploadType) (s : State) :
  includesType SUPPORTED_MIME_TYPES (GeminiService.type file) = true ->
  (GeminiService.size file >? MAX_FILE_SIZE_BYTES)%Z = true ->
  handleFileUpload file t s
  = ([], setError (Some tooLargeMessage) (setError None s)).
Proof. intros H1 H2. unfold handleFileUpload. rewrite H1, H2. reflexivity. Qed.

(** Past the gate, the error is empty or reports that the file could
    not be loaded. *)
Lemma handleFileUpload_passed (file : GeminiService.File)
  (t : UploadType) (s : State) :
  includesType SUPPORTED_MIME_TYPES (GeminiService.type file) = true ->
  (GeminiService.size file >? MAX_FILE_SIZE_BYTES)%Z = false ->
  error (valueOf (handleFileUpload file t s)) = None
  \/ error (valueOf (handleFileUpload file t s))
     = Some (loadErrorMessage t NonError).
Proof.
  intros H1 H2. unfold handleFileUpload, GeminiService.fileToBase64.
  rewrite H1, H2. simpl.
  destruct t, (GeminiService.readAsDataURL file); simpl; auto.
Qed.

(** C6.  The upload gate.  A file passes the gate exactly when its
    declared type is one of image/jpeg, image/png, image/webp and its size
    is at most 10 MiB.  A file of another type is turned away with the
    banner naming the supported types; a file of a supported type above
    10 MiB with the banner naming the size limit.  A file that passes and
    can be read is taken up: as the image to crop, with the modal open, or
    as the style reference. *)
Theorem handleFileUpload_gate (file : GeminiService.File) (t : UploadType)
  (s : State) :
  let okType :=
    GeminiService.type file = "image/jpeg"
    \/ GeminiService.type file = "image/png"
    \/ GeminiService.type file = "image/webp" in
  let okSize := (GeminiService.size file <= 10 * 1024 * 1024)%Z in
  let after := valueOf (handleFileUpload file t s) in
  (~ okType ->
   banner after
   = Some "Unsupported file type. Please upload a JPEG, PNG, or WEBP image.")
  /\ (okType -> ~ okSize ->
      banner after
      = Some "File is too large. Please upload an image smaller than 10MB.")
  /\ (okType /\ okSize <->
      error after <> Some unsupportedTypeMessage
      /\ error after <> Some tooLargeMessage)
  /\ (okType -> okSize ->
      forall result, GeminiService.readAsDataURL file = Some result ->
      let payload := nth 1 (split "," result) EmptyString in
      error after = None
      /\ match t with
         | product =>
             originalProductImage after
             = Some {| Original.dataUrl :=
                         "data:" ++ GeminiService.type file ++ ";base64,"
                         ++ payload;
                       Original.mimeType := GeminiService.type file |}
             /\ productImage after = None
             /\ isCropModalOpen after = true
         | style =>
             styleReferenceImage after
             = Some {| base64 := payload;
                       mimeType := GeminiService.type file |}
         end).
Proof.
  intros okType okSize after. subst okType okSize after.
  rewrite <- includesType_supported, <- tooLarge_iff.
  destruct (includesType SUPPORTED_MIME_TYPES (GeminiService.type file))
    eqn:Htype.
  - destruct (GeminiService.size file >? MAX_FILE_SIZE_BYTES)%Z eqn:Hsize.
    + rewrite (handleFileUpload_tooLarge file t s Htype Hsize).
      split; [intros H; exfalso; apply H; reflexivity|].
      split; [intros _ _; reflexivity|].
      split; [|intros _ H; discriminate H].
      split; [intros [_ H]; discriminate H|].
      intros [_ H]. exfalso. apply H. reflexivity.
    + split; [intros H; exfalso; apply H; reflexivity|].
      split; [intros _ H; exfalso; apply H; reflexivity|].
      split.
      * split; [intros _|auto].
        destruct (handleFileUpload_passed file t s Htype Hsize) as [-> | ->];
          split; try discriminate; destruct t; discriminate.
      * intros _ _ result Hread.
        unfold handleFileUpload, GeminiService.fileToBase64.
        rewrite Htype, Hsize, Hread. destruct t; simpl; auto.
  - rewrite (handleFileUpload_unsupported file t s Htype).
    split; [intros _; reflexivity|].
    split; [intros H; discriminate H|].
    split; [|intros H; discriminate H].
    split; [intros [H _]; discriminate H|].
    intros [H _]. exfalso. apply H. reflexivity.
Qed.

(** A PNG of 15 MiB is turned away as too large; a JPEG of 5 MiB is
    taken up. *)
Lemma handleFileUpload_gate_witness :
  banner (valueOf (handleFileUpload Samples.png15MiB product initial))
  = Some "File is too large. Please upload an image smaller than 10MB."
  /\ (error (valueOf (handleFileUpload Samples.jpeg5MiB product initial)) = None
      /\ originalProductImage
           (valueOf (handleFileUpload Samples.jpeg5MiB product initial))
         = Some {| Original.dataUrl := "data:image/jpeg;base64,/9j/4AAQ";
                   Original.mimeType := "image/jpeg" |}
      /\ productImage
           (valueOf (handleFileUpload Samples.jpeg5MiB product initial)) = None
      /\ isCropModalOpen
           (valueOf (handleFileUpload Samples.jpeg5MiB product initial)) = true).
Proof.
  split.
  - apply (handleFileUpload_gate Samples.png15MiB product initial).
    + right. left. reflexivity.
    + simpl. lia.
  - apply (handleFileUpload_gate Samples.jpeg5MiB product initial)
      with (result := "data:image/jpeg;base64,/9j/4AAQ").
    + left. reflexivity.
    + simpl. lia.
    + reflexivity.
Defined.

(** C10.  A rejected upload changes none of the image state.  When the
    declared type is not supported or the size is above 10 MiB, the
    product image, the original product image, the style reference image,
    the prompt and the generated image are as before, and so is every
    other part of the state but the error, which holds the message of the
    rejection; nothing is logged. *)
Theorem handleFileUpload_rejected_frame (file : GeminiService.File)
  (t : UploadType) (s : State) :
  ~ (GeminiService.type file = "image/jpeg"
     \/ GeminiService.type file = "image/png"
     \/ GeminiService.type file = "image/webp")
  \/ ~ (GeminiService.size file <= 10 * 1024 * 1024)%Z ->
  let after := valueOf (handleFileUpload file t s) in
  productImage after = productImage s
  /\ originalProductImage after = originalProductImage s
  /\ styleReferenceImage after = styleReferenceImage s
  /\ prompt after = prompt s
  /\ generatedImage after = generatedImage s
  /\ isCropModalOpen after = isCropModalOpen s
  /\ aspectRatio after = aspectRatio s
  /\ lightingStyle after = lightingStyle s
  /\ cameraPerspective after = cameraPerspective s
  /\ isGeneratingPrompt after = isGeneratingPrompt s
  /\ isGeneratingImage after = isGeneratingImage s
  /\ (error after = Some unsupportedTypeMessage
      \/ error after = Some tooLargeMessage)
  /\ logOf (handleFileUpload file t s) = [].
Proof.
  rewrite <- includesType_supported, <- tooLarge_iff. intros Hrej after.
  subst after.
  destruct (includesType SUPPORTED_MIME_TYPES (GeminiService.type file))
    eqn:Htype.
  - destruct (GeminiService.size file >? MAX_FILE_SIZE_BYTES)%Z eqn:Hsize.
    + rewrite (handleFileUpload_tooLarge file t s Htype Hsize).
      simpl. repeat split; auto.
    + exfalso. destruct Hrej as [H | H]; apply H; reflexivity.
  - rewrite (handleFileUpload_unsupported file t s Htype).
    simpl. repeat split; auto.
Qed.

Lemma handleFileUpload_rejected_frame_witness :
  ~ (15 * 1024 * 1024 <= 10 * 1024 * 1024)%Z
  /\ generatedImage
       (valueOf (handleFileUpload Samples.png15MiB style Samples.afterGeneration))
     = Some "data:image/png;base64,T0xE"
  /\ productImage
       (valueOf (handleFileUpload Samples.png15MiB style Samples.afterGeneration))
     = Some Samples.product.
Proof.
  assert (Hbig : ~ (15 * 1024 * 1024 <= 10 * 1024 * 1024)%Z) by lia.
  split; [exact Hbig|].
  destruct (handleFileUpload_rejected_frame Samples.png15MiB style
              Samples.afterGeneration (or_intror Hbig))
    as (Hp & _ & _ & _ & Hg & _).
  split; [exact Hg | exact Hp].
Defined.

(** C1 as stated does not hold.  The image-edit call on an answer with
    zero image parts fails, and [handleGenerateImage] then leaves no
    generated image: the one that was displayed before is gone. *)
Lemma failed_edit_clears_generated_image :
  valueOf (GeminiService.editProductImage Samples.textRemote Samples.product
             (prompt Samples.afterGeneration)
             (styleReferenceImage Samples.afterGeneration))
  = Raises (JsError GeminiService.noImageMessage)
  /\ displayedResult Samples.afterGeneration
     = Some "data:image/png;base64,T0xE"
  /\ displayedResult
       (valueOf (handleGenerateImage Samples.textRemote Samples.afterGeneration))
     = None
  /\ generatedImage
       (valueOf (handleGenerateImage Samples.textRemote Samples.afterGeneration))
     <> generatedImage Samples.afterGeneration.
Proof. repeat split; try reflexivity. discriminate. Qed.

(** C1, amended.  When [handleGenerateImage] runs with a product image
    and a prompt and the image-edit call fails, the prompt, the product
    image, the original product image, the style reference image and the
    settings are as before, the error holds the message of the failure,
    no generation is marked as running, and the generated image is
    cleared: it was reset when the call started. *)
Theorem handleGenerateImage_failure (ai : Genai.Remote) (s : State)
  (image : EncodedImage) (e : Thrown) :
  productImage s = Some image ->
  truthy (prompt s) = true ->
  valueOf (GeminiService.editProductImage ai image (prompt s)
             (styleReferenceImage s)) = Raises e ->
  let after := valueOf (handleGenerateImage ai s) in
  prompt after = prompt s
  /\ productImage after = productImage s
  /\ originalProductImage after = originalProductImage s
  /\ styleReferenceImage after = styleReferenceImage s
  /\ isCropModalOpen after = isCropModalOpen s
  /\ aspectRatio after = aspectRatio s
  /\ lightingStyle after = lightingStyle s
  /\ cameraPerspective after = cameraPerspective s
  /\ isGeneratingPrompt after = isGeneratingPrompt s
  /\ isGeneratingImage after = false
  /\ error after = Some (messageOr e unknownImageMessage)
  /\ generatedImage after = None.
Proof.
  intros Himage Hprompt Hfail after. subst after.
  unfold handleGenerateImage. rewrite Himage, Hprompt.
  destruct (GeminiService.editProductImage ai image (prompt s)
              (styleReferenceImage s)) as [log r].
  unfold valueOf in Hfail. simpl in Hfail. subst r.
  simpl. rewrite Himage. repeat split.
Qed.

(** The answer with zero image parts: the banner then shows the message
    that the model did not return an image. *)
Lemma handleGenerateImage_failure_witness :
  productImage Samples.afterGeneration = Some Samples.product
  /\ truthy (prompt Samples.afterGeneration) = true
  /\ prompt (valueOf (handleGenerateImage Samples.textRemote
                        Samples.afterGeneration))
     = "a studio shot"
  /\ banner (valueOf (handleGenerateImage Samples.textRemote
                        Samples.afterGeneration))
     = Some GeminiService.noImageMessage
  /\ generatedImage (valueOf (handleGenerateImage Samples.textRemote
                                Samples.afterGeneration))
     = None.
Proof.
  split; [reflexivity|]. split; [reflexivity|].
  destruct (@handleGenerateImage_failure Samples.textRemote
              Samples.afterGeneration Samples.product
              (JsError GeminiService.noImageMessage)
              eq_refl eq_refl eq_refl)
    as (Hprompt & _ & _ & _ & _ & _ & _ & _ & _ & _ & Herror & Hgenerated).
  split; [exact Hprompt|]. split; [|exact Hgenerated].
  unfold banner. rewrite Herror. reflexivity.
Defined.

End AppFacts.

(* ================================================================== *)
(** * Properties of numbers *)
(* ================================================================== *)

Module NumberFacts.

Lemma Qgtb_true (a b : Q) : Qgtb a b = true <-> b < a.
Proof.
  unfold Qgtb. rewrite negb_true_iff. split.
  - intros Hb. apply Qnot_le_lt. intros Hle.
    apply Qle_bool_iff in Hle. congruence.
  - intros Hlt. destruct (Qle_bool a b) eqn:E; [|reflexivity].
    apply Qle_bool_iff in E. exfalso. exact (Qlt_not_le _ _ Hlt E).
Qed.

Lemma Qgtb_false (a b : Q) : Qgtb a b = false <-> a <= b.
Proof.
  unfold Qgtb. rewrite negb_false_iff. apply Qle_bool_iff.
Qed.

Lemma Qtruthy_true (a : Q) : Qtruthy a = true <-> ~ a == 0.
Proof.
  unfold Qtruthy. rewrite negb_true_iff. split.
  - intros Hb Heq. apply Qeq_bool_iff in Heq. congruence.
  - intros Hne. destruct (Qeq_bool a 0) eqn:E; [|reflexivity].
    apply Qeq_bool_iff in E. contradiction.
Qed.

(** The guard [naturalWidth > 0 && naturalHeight > 0]. *)
Lemma guard_true (w h : Q) :
  Qgtb w 0 && Qgtb h 0 = true <-> 0 < w /\ 0 < h.
Proof. rewrite andb_true_iff, !Qgtb_true. tauto. Qed.

Lemma guard_false (w h : Q) :
  Qgtb w 0 && Qgtb h 0 = false <-> ~ (0 < w /\ 0 < h).
Proof.
  rewrite <- guard_true. destruct (Qgtb w 0 && Qgtb h 0); split; intros;
    congruence.
Qed.

Lemma floor_of_integer (q : Q) (n : Z) : q == inject_Z n -> Math_floor q = n.
Proof. intros ->. apply Qfloor_Z. Qed.

End NumberFacts.

(* ================================================================== *)
(** * Properties of the crop modal *)
(* ================================================================== *)

Module ImageCropModalFacts.

Module RC := ReactImageCrop.
Import ImageCropModal NumberFacts.

Lemma layout_twice (style : option Size.t) (image : Img.t) :
  layout style (layout style image) = layout style image.
Proof. destruct style; reflexivity. Qed.

Lemma render_twice (m : Modal) : render (render m) = render m.
Proof.
  unfold render, setImgRef, imgStyle; simpl.
  destruct (imgRef m); simpl; [|reflexivity].
  rewrite layout_twice. reflexivity.
Qed.

(** A render touches nothing but the size the element is laid out at. *)
Lemma render_frame (m : Modal) :
  crop (render m) = crop m
  /\ aspect (render m) = aspect m
  /\ isSaving (render m) = isSaving m
  /\ scale (render m) = scale m
  /\ imgSize (render m) = imgSize m
  /\ mimeType (render m) = mimeType m
  /\ imageSrc (render m) = imageSrc m.
Proof. repeat split. Qed.

Lemma render_natural (m : Modal) (img : Img.t) :
  imgRef m = Some img ->
  exists img', imgRef (render m) = Some img'
               /\ Img.naturalWidth img' = Img.naturalWidth img
               /\ Img.naturalHeight img' = Img.naturalHeight img.
Proof.
  intros H. unfold render; simpl. rewrite H; simpl.
  eexists; split; [reflexivity|].
  destruct (imgStyle m); simpl; auto.
Qed.

Section WithLibrary.

Context {lib : RC.Library}.

(** The crop both [onImageLoad] and the aspect effect store for an
    image of natural size [w] by [h]. *)
Lemma onImageLoad_crop (e : Img.t) (m : Modal) :
  0 < Img.naturalWidth e -> 0 < Img.naturalHeight e ->
  crop (onImageLoad e m)
  = Some (RC.centerCrop
            (RC.makeAspectCrop {| RC.wunit := RC.Percent; RC.wwidth := 90 |}
               (aspect m) (Img.naturalWidth e) (Img.naturalHeight e))
            (Img.naturalWidth e) (Img.naturalHeight e)).
Proof.
  intros Hw Hh. unfold onImageLoad.
  rewrite (proj2 (guard_true _ _) (conj Hw Hh)). reflexivity.
Qed.

Lemma onImageLoad_not_loaded (e : Img.t) (m : Modal) :
  ~ (0 < Img.naturalWidth e /\ 0 < Img.naturalHeight e) ->
  onImageLoad e m
  = setImgSize {| Size.width := Img.width e; Size.height := Img.height e |} m.
Proof.
  intros H. unfold onImageLoad.
  rewrite (proj2 (guard_false _ _) H). reflexivity.
Qed.

Lemma aspectEffect_crop (img : Img.t) (m : Modal) :
  imgRef m = Some img ->
  0 < Img.naturalWidth img -> 0 < Img.naturalHeight img ->
  aspectEffect m
  = setCrop
      (Some (RC.centerCrop
               (RC.makeAspectCrop {| RC.wunit := RC.Percent; RC.wwidth := 90 |}
                  (aspect m) (Img.naturalWidth img) (Img.naturalHeight img))
               (Img.naturalWidth img) (Img.naturalHeight img)))
      m.
Proof.
  intros Href Hw Hh. unfold aspectEffect. rewrite Href.
  rewrite (proj2 (guard_true _ _) (conj Hw Hh)). reflexivity.
Qed.

Lemma changed_aspect (a b : Q) : ~ a == b -> Qeq_bool a b = false.
Proof.
  intros H. destruct (Qeq_bool a b) eqn:E; [|reflexivity].
  apply Qeq_bool_iff in E. contradiction.
Qed.

Lemma same_aspect (a : Q) : Qeq_bool a a = true.
Proof. apply Qeq_bool_iff. reflexivity. Qed.

(** An aspect change on a loaded image: the modal afterwards. *)
Lemma step_aspect_changed (m : Modal) (img : Img.t) (a : Q) :
  imgRef m = Some img ->
  0 < Img.naturalWidth img -> 0 < Img.naturalHeight img ->
  ~ a == aspect m ->
  step m (AspectProp a)
  = render
      (setCrop
         (Some (RC.centerCrop
                  (RC.makeAspectCrop
                     {| RC.wunit := RC.Percent; RC.wwidth := 90 |}
                     a (Img.naturalWidth img) (Img.naturalHeight img))
                  (Img.naturalWidth img) (Img.naturalHeight img)))
         (setAspect a m)).
Proof.
  intros Href Hw Hh Hne. unfold step. rewrite (changed_aspect Hne).
  rewrite (@aspectEffect_crop img (setAspect a m) Href Hw Hh). reflexivity.
Qed.

(** C4.  Changing the aspect ratio while an image is loaded recomputes
    the crop by the computation of the image-load transition: the crop
    afterwards is the one a load of an image of the same natural size
    stores in any modal with the new aspect, so it depends on the image
    dimensions and the new aspect only; a rectangle the user dragged before
    is discarded; and the same change again leaves the modal as it is. *)
Theorem aspect_change_recomputes (m : Modal) (img : Img.t) (a : Q) :
  imgRef m = Some img ->
  0 < Img.naturalWidth img -> 0 < Img.naturalHeight img ->
  ~ a == aspect m ->
  (forall (m0 : Modal) (e : Img.t),
      aspect m0 = a ->
      Img.naturalWidth e = Img.naturalWidth img ->
      Img.naturalHeight e = Img.naturalHeight img ->
      crop (step m (AspectProp a)) = crop (step m0 (ImageLoaded e)))
  /\ (forall dragged : RC.Crop,
        crop (step (step m (CropDragged dragged)) (AspectProp a))
        = crop (step m (AspectProp a)))
  /\ step (step m (AspectProp a)) (AspectProp a) = step m (AspectProp a).
Proof.
  intros Href Hw Hh Hne.
  rewrite (@step_aspect_changed m img a Href Hw Hh Hne).
  split; [|split].
  - intros m0 e Ha Hew Heh. simpl.
    rewrite <- Hew in Hw. rewrite <- Heh in Hh.
    rewrite (@onImageLoad_crop e (setImgRef (Some e) m0) Hw Hh).
    simpl. rewrite Ha, Hew, Heh. reflexivity.
  - intros dragged.
    destruct (@render_natural (onCropChange dragged m) img Href)
      as (img' & Href' & Hw' & Hh').
    change (step m (CropDragged dragged)) with (render (onCropChange dragged m)).
    rewrite <- Hw' in Hw. rewrite <- Hh' in Hh.
    rewrite (@step_aspect_changed _ img' a Href' Hw Hh Hne).
    simpl. rewrite Hw', Hh'. reflexivity.
  - unfold step at 1. simpl aspect. rewrite same_aspect.
    apply render_twice.
Qed.

(** C8.  Moving the zoom does not alter the crop, nor any other state
    but [scale]; once the image has loaded, the element is laid out at the
    measured size multiplied by the new scale, its natural size is as
    before, and the scale factors [getCroppedImg] computes at save time
    are the natural size divided by that scaled size. *)
Theorem zoom_keeps_crop (m : Modal) (value : Q) :
  1 <= value <= 3 ->
  let m' := step m (ZoomMoved value) in
  crop m' = crop m
  /\ aspect m' = aspect m
  /\ imgSize m' = imgSize m
  /\ isSaving m' = isSaving m
  /\ scale m' = value
  /\ (forall img,
        imgRef m = Some img ->
        Qtruthy (Size.width (imgSize m)) = true ->
        exists img',
          imgRef m' = Some img'
          /\ Img.width img' = Size.width (imgSize m) * value
          /\ Img.height img' = Size.height (imgSize m) * value
          /\ Img.naturalWidth img' = Img.naturalWidth img
          /\ Img.naturalHeight img' = Img.naturalHeight img
          /\ scaleX img'
             = Img.naturalWidth img / (Size.width (imgSize m) * value)
          /\ scaleY img'
             = Img.naturalHeight img / (Size.height (imgSize m) * value)).
Proof.
  intros _ m'. subst m'. repeat split.
  intros img Href Hloaded. simpl. unfold imgStyle. simpl.
  rewrite Hloaded, Href. simpl. eexists. split; [reflexivity|].
  repeat split.
Qed.

End WithLibrary.

Lemma aspect_change_recomputes_witness :
  imgRef Samples.loadedModal
  = Some {| Img.naturalWidth := 1000; Img.naturalHeight := 1000;
            Img.width := 500; Img.height := 500 |}
  /\ 0 < 1000 /\ ~ 16 / 9 == aspect Samples.loadedModal
  /\ step (lib := RC.specLibrary)
       (step (lib := RC.specLibrary) Samples.loadedModal (AspectProp (16 / 9)))
       (AspectProp (16 / 9))
     = step (lib := RC.specLibrary) Samples.loadedModal (AspectProp (16 / 9)).
Proof.
  assert (Href : imgRef Samples.loadedModal
                 = Some {| Img.naturalWidth := 1000; Img.naturalHeight := 1000;
                           Img.width := 500; Img.height := 500 |})
    by reflexivity.
  assert (Hpos : 0 < 1000) by reflexivity.
  assert (Hne : ~ 16 / 9 == aspect Samples.loadedModal) by (intros H; discriminate H).
  split; [exact Href|]. split; [exact Hpos|]. split; [exact Hne|].
  apply (@aspect_change_recomputes RC.specLibrary Samples.loadedModal _ (16 / 9)
           Href Hpos Hpos Hne).
Defined.

Lemma zoom_keeps_crop_witness :
  1 <= 2 <= 3
  /\ crop (step (lib := RC.specLibrary) Samples.loadedModal (ZoomMoved 2))
     = crop Samples.loadedModal
  /\ exists img',
       imgRef (step (lib := RC.specLibrary) Samples.loadedModal (ZoomMoved 2))
       = Some img'
       /\ Img.width img' = 500 * 2.
Proof.
  assert (Hrange : 1 <= 2 <= 3) by (split; discriminate).
  split; [exact Hrange|].
  destruct (@zoom_keeps_crop RC.specLibrary Samples.loadedModal 2 Hrange)
    as (Hcrop & _ & _ & _ & _ & Hshown).
  split; [exact Hcrop|].
  destruct (Hshown _ eq_refl eq_refl) as (img' & Href & Hw & _).
  exists img'. split; [exact Href | exact Hw].
Defined.

End ImageCropModalFacts.

(* ================================================================== *)
(** * The image-load transition on the modelled library *)
(* ================================================================== *)

Module SpecLibraryFacts.

Module RC := ReactImageCrop.
Import NumberFacts.

Lemma positive_nonzero (q : Q) : 0 < q -> ~ q == 0.
Proof. intros H E. rewrite E in H. discriminate. Qed.

(** The rectangle the modelled library computes for the call of the
    modal, on a surface of [W] by [H]. *)
Lemma initial_onSurface (a nW nH W H : Q) :
  0 < a -> 0 < nW -> 0 < nH ->
  let c :=
    RC.specCenterCrop
      (RC.specMakeAspectCrop {| RC.wunit := RC.Percent; RC.wwidth := 90 |}
         a nW nH)
      nW nH in
  let p := RC.onSurface c W H in
  RC.unit c = RC.Percent
  /\ RC.x p == (W - RC.width p) / 2
  /\ RC.y p == (H - RC.height p) / 2
  /\ ((nW / a <= nH
       /\ RC.width p == (9 # 10) * W
       /\ RC.height p == (9 # 10) * (nW / a) / nH * H)
      \/ (nH * a < nW
          /\ RC.width p == (9 # 10) * (nH * a) / nW * W
          /\ RC.height p == (9 # 10) * H)).
Proof.
  intros Ha HnW HnH c p. subst p c.
  pose proof (positive_nonzero Ha) as Ha0.
  pose proof (positive_nonzero HnW) as HW0.
  pose proof (positive_nonzero HnH) as HH0.
  assert (Et : 90 / 100 * nW / a == (9 # 10) * (nW / a)) by (field; auto).
  assert (Eh : 90 / 100 * nH == (9 # 10) * nH) by field.
  assert (Eta : nW / a * a == nW) by (field; auto).
  unfold RC.specMakeAspectCrop. simpl RC.wunit. cbv iota. simpl RC.wwidth.
  destruct (Qle_bool (90 / 100 * nW / a) (90 / 100 * nH)) eqn:E.
  - apply Qle_bool_iff in E. simpl.
    split; [reflexivity|]. split; [field; auto|]. split; [field; auto|].
    left. split; [|split; field; auto].
    rewrite Et, Eh in E. clear Et Eta. set (t := nW / a) in *. lra.
  - assert (Hlt : 90 / 100 * nH < 90 / 100 * nW / a).
    { apply Qnot_le_lt. intros Hle. apply Qle_bool_iff in Hle. congruence. }
    simpl.
    split; [reflexivity|]. split; [field; auto|]. split; [field; auto|].
    right. split; [|split; field; auto].
    rewrite Et, Eh in Hlt. rewrite <- Eta. apply Qmult_lt_compat_r; [exact Ha|].
    set (t := nW / a) in *. lra.
Qed.

Lemma share_positive (x d S : Q) :
  0 < x -> 0 < d -> 0 < S -> 0 < (9 # 10) * x / d * S.
Proof.
  intros Hx Hd HS.
  apply Qmult_lt_0_compat; [|exact HS].
  apply Qlt_shift_div_l; [exact Hd|]. lra.
Qed.

Lemma share_bounded (x d S : Q) :
  0 < d -> 0 < S -> x <= d -> (9 # 10) * x / d * S <= (9 # 10) * S.
Proof.
  intros Hd HS Hx.
  pose proof (positive_nonzero Hd) as Hd0.
  assert (E1 : (9 # 10) * x / d * S == (9 # 10) * (x * (S / d)))
    by (field; auto).
  assert (E2 : S / d * d == S) by (field; auto).
  assert (Hk : 0 < S / d) by (apply Qlt_shift_div_l; lra).
  rewrite E1. rewrite <- E2 at 2.
  assert (Hle : x * (S / d) <= d * (S / d))
    by (apply Qmult_le_compat_r; lra).
  set (k := S / d) in *. rewrite (Qmult_comm k d). lra.
Qed.

Import ImageCropModal.

(** C3.  The image-load transition, with the library modelled from the
    specification.  For an image of positive natural size and a positive
    target aspect, [onImageLoad] stores a crop in percent which, on every
    surface of [W] by [H] pixels, is centered, has positive width and
    height of at most 90% of the surface, and lies within the surface; on
    a surface with the proportions of the image, the displayed size among
    them, its width divided by its height is the target aspect.  When the
    natural width or height is not positive, the crop is the one before:
    none, when none was set. *)
Theorem onImageLoad_initial_crop (e : Img.t) (m : Modal) :
  (0 < Img.naturalWidth e -> 0 < Img.naturalHeight e -> 0 < aspect m ->
   exists c : RC.Crop,
     crop (onImageLoad (lib := RC.specLibrary) e m) = Some c
     /\ RC.unit c = RC.Percent
     /\ forall W H : Q, 0 < W -> 0 < H ->
        let p := RC.onSurface c W H in
        (RC.x p == W - (RC.x p + RC.width p)
         /\ RC.y p == H - (RC.y p + RC.height p))
        /\ (0 < RC.width p /\ RC.width p <= (9 # 10) * W)
        /\ (0 < RC.height p /\ RC.height p <= (9 # 10) * H)
        /\ (0 <= RC.x p /\ RC.x p + RC.width p <= W)
        /\ (0 <= RC.y p /\ RC.y p + RC.height p <= H)
        /\ (W * Img.naturalHeight e == H * Img.naturalWidth e ->
            RC.width p / RC.height p == aspect m))
  /\ (~ (0 < Img.naturalWidth e /\ 0 < Img.naturalHeight e) ->
      crop (onImageLoad (lib := RC.specLibrary) e m) = crop m).
Proof.
  split.
  - intros HnW HnH Ha.
    rewrite (@ImageCropModalFacts.onImageLoad_crop RC.specLibrary e m HnW HnH).
    eexists. split; [reflexivity|]. simpl RC.centerCrop. simpl RC.makeAspectCrop.
    set (nW := Img.naturalWidth e) in *. set (nH := Img.naturalHeight e) in *.
    set (a := aspect m) in *.
    split; [exact (proj1 (@initial_onSurface a nW nH 1 1 Ha HnW HnH))|].
    intros W H HW HH p.
    destruct (@initial_onSurface a nW nH W H Ha HnW HnH)
      as (_ & Hx & Hy & Hfit).
    fold p in Hx, Hy, Hfit. clearbody p.
    pose proof (positive_nonzero Ha) as Ha0.
    pose proof (positive_nonzero HnW) as HW0.
    pose proof (positive_nonzero HnH) as HH0.
    pose proof (positive_nonzero HW) as HW1.
    pose proof (positive_nonzero HH) as HH1.
    assert (Hsize : (0 < RC.width p /\ RC.width p <= (9 # 10) * W)
                    /\ (0 < RC.height p /\ RC.height p <= (9 # 10) * H)
                    /\ (W * nH == H * nW -> RC.width p / RC.height p == a)).
    { destruct Hfit as [(Hcase & Hw & Hh) | (Hcase & Hw & Hh)].
      - split; [rewrite Hw; lra|]. split.
        + rewrite Hh. split.
          * apply share_positive; auto. apply Qlt_shift_div_l; lra.
          * apply share_bounded; auto.
        + intros Hprop. rewrite Hw, Hh.
          assert (EW : W == H * nW / nH) by (rewrite <- Hprop; field; auto).
          rewrite EW. field. repeat split; auto.
      - split; [|split].
        + rewrite Hw. split.
          * apply share_positive; auto. apply Qmult_lt_0_compat; auto.
          * apply share_bounded; auto. apply Qlt_le_weak. exact Hcase.
        + rewrite Hh. lra.
        + intros Hprop. rewrite Hw, Hh.
          assert (EW : W == H * nW / nH) by (rewrite <- Hprop; field; auto).
          rewrite EW. field. repeat split; auto. }
    destruct Hsize as ((Hw0 & Hw1) & (Hh0 & Hh1) & Hratio).
    set (xp := RC.x p) in *. set (yp := RC.y p) in *.
    set (wp := RC.width p) in *. set (hp := RC.height p) in *.
    assert (Hx' : xp == (1 # 2) * W - (1 # 2) * wp) by (rewrite Hx; field).
    assert (Hy' : yp == (1 # 2) * H - (1 # 2) * hp) by (rewrite Hy; field).
    repeat split; try assumption; try lra.
  - intros Hnot.
    rewrite (@ImageCropModalFacts.onImageLoad_not_loaded RC.specLibrary e m Hnot).
    reflexivity.
Qed.

Lemma onImageLoad_initial_crop_witness :
  0 < 1000 /\ 0 < 16 / 9
  /\ exists c : RC.Crop,
       crop (onImageLoad (lib := RC.specLibrary) Samples.square1000
               (setAspect (16 / 9) Samples.openedModal)) = Some c
       /\ RC.width (RC.onSurface c 500 500) <= (9 # 10) * 500
       /\ RC.width (RC.onSurface c 500 500) / RC.height (RC.onSurface c 500 500)
          == 16 / 9.
Proof.
  assert (Hpos : 0 < 1000) by reflexivity.
  assert (Ha : 0 < 16 / 9) by reflexivity.
  split; [exact Hpos|]. split; [exact Ha|].
  destruct (proj1 (onImageLoad_initial_crop Samples.square1000
                     (setAspect (16 / 9) Samples.openedModal))
              Hpos Hpos Ha)
    as (c & Hcrop & _ & Hgeometry).
  exists c. split; [exact Hcrop|].
  destruct (Hgeometry 500 500 eq_refl eq_refl)
    as (_ & (_ & Hwidth) & _ & _ & _ & Hratio).
  split; [exact Hwidth|]. apply Hratio. reflexivity.
Defined.

End SpecLibraryFacts.

(* ================================================================== *)
(** * Properties of the canvas export *)
(* ================================================================== *)

Module CanvasExportFacts.

Module RC := ReactImageCrop.
Import ImageCropModal NumberFacts.

(** The canvas is sized to the floored products of the crop size and
    the scale factors, whatever the browser. *)
Lemma getCroppedImg_canvas_size (browser : Dom.Browser) (image : Img.t)
  (c : RC.Crop) (mime : string) :
  Dom.canvasWidth (canvas (getCroppedImg browser image c mime))
  = Math_floor (RC.width c * (Img.naturalWidth image / Img.width image))
  /\ Dom.canvasHeight (canvas (getCroppedImg browser image c mime))
     = Math_floor (RC.height c * (Img.naturalHeight image / Img.height image)).
Proof.
  unfold getCroppedImg. destruct (Dom.getContext2d browser); split; reflexivity.
Qed.

(** With a context, the region that is copied is the crop with each
    number multiplied by its scale factor, drawn at the origin in the same
    size. *)
Lemma getCroppedImg_region (browser : Dom.Browser) (image : Img.t)
  (c : RC.Crop) (mime : string) :
  Dom.getContext2d browser = true ->
  Dom.drawn (canvas (getCroppedImg browser image c mime))
  = Some {| Dom.sx := RC.x c * scaleX image;
            Dom.sy := RC.y c * scaleY image;
            Dom.sWidth := RC.width c * scaleX image;
            Dom.sHeight := RC.height c * scaleY image;
            Dom.dx := 0; Dom.dy := 0;
            Dom.dWidth := RC.width c * scaleX image;
            Dom.dHeight := RC.height c * scaleY image |}.
Proof. intros H. unfold getCroppedImg. rewrite H. reflexivity. Qed.

(** C2, at the crop the modal stores.  The user drags the crop over the
    whole of an image of 1000 by 1000 pixels that is displayed at 500 by
    500: the modal stores the crop in percent, 100 by 100, and the export
    multiplies these numbers by the scale factor 2 as if they were
    displayed pixels.  The canvas is 200 by 200, not 1000 by 1000. *)
Theorem getCroppedImg_full_percent_crop (lib : RC.Library)
  (browser : Dom.Browser) :
  let m :=
    run (lib := lib) Samples.openedModal
      [ImageLoaded Samples.square1000; CropDragged Samples.fullPercentCrop] in
  exists (image : Img.t) (c : RC.Crop),
    imgRef m = Some image
    /\ crop m = Some c
    /\ RC.unit c = RC.Percent
    /\ (RC.x (RC.onSurface c (Img.width image) (Img.height image)) == 0
        /\ RC.y (RC.onSurface c (Img.width image) (Img.height image)) == 0
        /\ RC.width (RC.onSurface c (Img.width image) (Img.height image))
           == Img.width image
        /\ RC.height (RC.onSurface c (Img.width image) (Img.height image))
           == Img.height image)
    /\ (Img.naturalWidth image == 1000 /\ Img.naturalHeight image == 1000)
    /\ Dom.canvasWidth (canvas (getCroppedImg browser image c (mimeType m)))
       = 200%Z
    /\ Dom.canvasHeight (canvas (getCroppedImg browser image c (mimeType m)))
       = 200%Z.
Proof.
  intros m. subst m. simpl. eexists. eexists.
  split; [reflexivity|]. split; [reflexivity|]. split; [reflexivity|].
  split; [repeat split; reflexivity|]. split; [split; reflexivity|].
  destruct (getCroppedImg_canvas_size browser
              {| Img.naturalWidth := 1000; Img.naturalHeight := 1000;
                 Img.width := 500 * 1; Img.height := 500 * 1 |}
              Samples.fullPercentCrop "image/png") as [-> ->].
  split; reflexivity.
Qed.

(** C5 as stated does not hold.  An empty region has no error of its
    own: on a browser that encodes
    every canvas with pixels, the thin crop, whose width floors to zero,
    is rejected with the error that a failing encoder gives for a region of
    100 by 100; without a 2D context it is rejected with the error of the
    missing context. *)
Lemma empty_region_error_is_generic :
  Dom.canvasWidth
    (canvas (getCroppedImg Samples.standardBrowser Samples.square1000
               Samples.thinCrop "image/png")) = 0%Z
  /\ settled (getCroppedImg Samples.standardBrowser Samples.square1000
                Samples.thinCrop "image/png")
     = Raises (JsError "Canvas is empty")
  /\ Dom.canvasWidth
       (canvas (getCroppedImg Samples.failingEncoder Samples.square1000
                  Samples.halfCrop "image/png")) = 100%Z
  /\ Dom.canvasHeight
       (canvas (getCroppedImg Samples.failingEncoder Samples.square1000
                  Samples.halfCrop "image/png")) = 100%Z
  /\ settled (getCroppedImg Samples.failingEncoder Samples.square1000
                Samples.halfCrop "image/png")
     = Raises (JsError "Canvas is empty")
  /\ settled (getCroppedImg Samples.noContextBrowser Samples.square1000
                Samples.thinCrop "image/png")
     = Raises (JsError "Could not get canvas context").
Proof. repeat split; reflexivity. Qed.

(** C5, amended.  [getCroppedImg] has no check of its own for an empty
    region.  When the width or the height of the crop floors to zero in
    natural pixels and the browser yields no blob for a canvas without
    pixels, the promise does not resolve: it is rejected with the error
    of an empty canvas, the one every failed encoding gives, or, without a
    2D context, with the error of the missing context. *)
Theorem getCroppedImg_empty_region (browser : Dom.Browser) (image : Img.t)
  (c : RC.Crop) (mime : string) :
  Dom.standardToBlob browser ->
  Math_floor (RC.width c * scaleX image) = 0%Z
  \/ Math_floor (RC.height c * scaleY image) = 0%Z ->
  settled (getCroppedImg browser image c mime)
  = Raises (JsError (if Dom.getContext2d browser
                     then canvasEmptyMessage else contextMessage)).
Proof.
  intros Hstd Hempty. unfold getCroppedImg.
  destruct (Dom.getContext2d browser); [|reflexivity].
  simpl. rewrite Hstd; [reflexivity|]. simpl. exact Hempty.
Qed.

Lemma standardBrowser_standard : Dom.standardToBlob Samples.standardBrowser.
Proof.
  intros c mime [H | H]; simpl; rewrite H; simpl;
    [reflexivity | rewrite orb_true_r; reflexivity].
Defined.

Lemma getCroppedImg_empty_region_witness :
  Dom.standardToBlob Samples.standardBrowser
  /\ (Math_floor (RC.width Samples.thinCrop * scaleX Samples.square1000) = 0%Z
      \/ Math_floor (RC.height Samples.thinCrop * scaleY Samples.square1000)
         = 0%Z)
  /\ settled (getCroppedImg Samples.standardBrowser Samples.square1000
                Samples.thinCrop "image/png")
     = Raises (JsError "Canvas is empty").
Proof.
  split; [exact standardBrowser_standard|].
  split; [left; reflexivity|].
  apply (@getCroppedImg_empty_region Samples.standardBrowser
           Samples.square1000 Samples.thinCrop "image/png"
           standardBrowser_standard).
  left. reflexivity.
Defined.

End CanvasExportFacts.

(* ================================================================== *)
(** * Which errors reach the banner *)
(* ================================================================== *)

Module BannerFacts.

Import App.

Lemma messageOr_truthy (e : Thrown) (fallback : string) :
  truthy fallback = true -> truthy (messageOr e fallback) = true.
Proof.
  intros H. unfold messageOr. destruct (message e) as [m|]; [|exact H].
  destruct (truthy m) eqn:E; [exact E | exact H].
Qed.

Lemma banner_of_error (s : State) (text : string) :
  truthy text = true -> banner (setError (Some text) s) = Some text.
Proof. intros H. unfold banner; simpl. rewrite H. reflexivity. Qed.

(** The banner can be dismissed. *)
Lemma dismissError_hides (s : State) : banner (dismissError s) = None.
Proof. reflexivity. Qed.

(** A file that passes the gate but cannot be read is reported. *)
Lemma upload_read_failure_surfaced (file : GeminiService.File)
  (t : UploadType) (s : State) :
  includesType SUPPORTED_MIME_TYPES (GeminiService.type file) = true ->
  (GeminiService.size file >? MAX_FILE_SIZE_BYTES)%Z = false ->
  GeminiService.readAsDataURL file = None ->
  banner (valueOf (handleFileUpload file t s))
  = Some (loadErrorMessage t NonError).
Proof.
  intros H1 H2 H3. unfold handleFileUpload, GeminiService.fileToBase64.
  rewrite H1, H2, H3. destruct t; reflexivity.
Qed.

Section WithRemote.

Variable ai : Genai.Remote.

(** A failed prompt synthesis is reported, and the prompt is kept. *)
Lemma updatePrompt_failure_surfaced (s : State) (e : Thrown) :
  valueOf (GeminiService.generateDescriptivePrompt ai
             {| Types.aspectRatio := aspectRatio s;
                Types.lightingStyle := lightingStyle s;
                Types.cameraPerspective := cameraPerspective s |}
             (styleReferenceImage s)) = Raises e ->
  banner (valueOf (updatePrompt ai s))
  = Some (messageOr e unknownPromptMessage)
  /\ prompt (valueOf (updatePrompt ai s)) = prompt s.
Proof.
  intros Hfail. unfold updatePrompt.
  destruct (GeminiService.generateDescriptivePrompt ai _ _) as [log r].
  unfold valueOf in Hfail. simpl in Hfail. subst r. simpl.
  split; [|reflexivity].
  unfold banner; simpl. rewrite messageOr_truthy; reflexivity.
Qed.

(** A failed image edit is reported. *)
Lemma generation_failure_surfaced (s : State) (image : EncodedImage)
  (e : Thrown) :
  productImage s = Some image ->
  truthy (prompt s) = true ->
  valueOf (GeminiService.editProductImage ai image (prompt s)
             (styleReferenceImage s)) = Raises e ->
  banner (valueOf (handleGenerateImage ai s))
  = Some (messageOr e unknownImageMessage).
Proof.
  intros Himage Hprompt Hfail. unfold handleGenerateImage.
  rewrite Himage, Hprompt.
  destruct (GeminiService.editProductImage ai image (prompt s)
              (styleReferenceImage s)) as [log r].
  unfold valueOf in Hfail. simpl in Hfail. subst r. simpl.
  unfold banner; simpl. rewrite messageOr_truthy; reflexivity.
Qed.

(** A generation without product image or prompt is reported. *)
Lemma handleGenerateImage_missing_input (s : State) :
  productImage s = None \/ prompt s = EmptyString ->
  handleGenerateImage ai s = ([], setError (Some missingInputMessage) s).
Proof.
  intros [H | H]; unfold handleGenerateImage; rewrite H;
    [reflexivity | destruct (productImage s); reflexivity].
Qed.

End WithRemote.

(** [handleSaveClick] on a failed export: one line in the console, and
    the modal as before. *)
Lemma handleSaveClick_failure (browser : Dom.Browser)
  (m : ImageCropModal.Modal) (image : Img.t) (c : ReactImageCrop.Crop)
  (e : Thrown) :
  ImageCropModal.imgRef m = Some image ->
  ImageCropModal.crop m = Some c ->
  Qtruthy (ReactImageCrop.width c) && Qtruthy (ReactImageCrop.height c) = true ->
  ImageCropModal.settled
    (ImageCropModal.getCroppedImg browser image c (ImageCropModal.mimeType m))
  = Raises e ->
  ImageCropModal.handleSaveClick browser m
  = (["Cropping failed"],
     (ImageCropModal.setIsSaving false (ImageCropModal.setIsSaving true m),
      None)).
Proof.
  intros Href Hcrop Hsize Hfail. unfold ImageCropModal.handleSaveClick.
  rewrite Href, Hcrop, Hsize, Hfail. reflexivity.
Qed.

(** C9, at the save of the crop.  When the export of the crop fails,
    whatever the error, the click on the save button ends with one line in
    the console and nothing else: the state of the application, its error
    included, is as before, so the banner shows what it showed before, and
    nothing when no error was pending; the modal stays open. *)
Theorem clickSave_failure_only_logged (browser : Dom.Browser)
  (w : Studio.World) (m : ImageCropModal.Modal) (image : Img.t)
  (c : ReactImageCrop.Crop) (e : Thrown) :
  Studio.modal w = Some m ->
  ImageCropModal.imgRef m = Some image ->
  ImageCropModal.crop m = Some c ->
  Qtruthy (ReactImageCrop.width c) && Qtruthy (ReactImageCrop.height c) = true ->
  ImageCropModal.settled
    (ImageCropModal.getCroppedImg browser image c (ImageCropModal.mimeType m))
  = Raises e ->
  let after := Studio.clickSave browser w in
  logOf after = ["Cropping failed"]
  /\ Studio.app (valueOf after) = Studio.app w
  /\ banner (Studio.app (valueOf after)) = banner (Studio.app w)
  /\ Studio.modal (valueOf after)
     = Some (ImageCropModal.setIsSaving false
               (ImageCropModal.setIsSaving true m)).
Proof.
  intros Hmodal Href Hcrop Hsize Hfail after. subst after.
  unfold Studio.clickSave. rewrite Hmodal.
  rewrite (@handleSaveClick_failure browser m image c e Href Hcrop Hsize Hfail).
  repeat split.
Qed.

(** Without a 2D context the export fails; the application shows no
    banner afterwards, and the modal is still open. *)
Lemma clickSave_failure_only_logged_witness :
  Studio.modal Samples.croppingWorld = Some Samples.loadedModal
  /\ logOf (Studio.clickSave Samples.noContextBrowser Samples.croppingWorld)
     = ["Cropping failed"]
  /\ banner (Studio.app
               (valueOf (Studio.clickSave Samples.noContextBrowser
                           Samples.croppingWorld)))
     = None
  /\ Studio.modal
       (valueOf (Studio.clickSave Samples.noContextBrowser
                   Samples.croppingWorld))
     <> None.
Proof.
  split; [reflexivity|].
  destruct (@clickSave_failure_only_logged Samples.noContextBrowser
              Samples.croppingWorld Samples.loadedModal
              {| Img.naturalWidth := 1000; Img.naturalHeight := 1000;
                 Img.width := 500 * 1; Img.height := 500 * 1 |}
              _ (JsError ImageCropModal.contextMessage)
              eq_refl eq_refl eq_refl eq_refl eq_refl)
    as (Hlog & _ & Hbanner & Hmodal).
  split; [exact Hlog|]. split; [rewrite Hbanner; reflexivity|].
  rewrite Hmodal. discriminate.
Defined.

End BannerFacts.

(* ================================================================== *)
(** * Properties of the string functions *)
(* ================================================================== *)

Module JsFacts.

Open Scope string_scope.

Lemma toLowerCase_app (a b : string) :
  toLowerCase (a ++ b) = toLowerCase a ++ toLowerCase b.
Proof. induction a as [|c a IH]; simpl; [reflexivity | now rewrite IH]. Qed.

Lemma prefix_app (k rest : string) : String.prefix k (k ++ rest) = true.
Proof.
  induction k as [|c k IH]; simpl.
  - destruct rest; reflexivity.
  - destruct (ascii_dec c c) as [_|Hne]; [exact IH | now elim Hne].
Qed.

Lemma includes_here (s needle : string) :
  String.prefix needle s = true -> includes s needle = true.
Proof. intros H. destruct s; simpl in *; rewrite H; reflexivity. Qed.

Lemma includes_later (c : ascii) (s needle : string) :
  includes s needle = true -> includes (String c s) needle = true.
Proof. intros H. simpl. rewrite H. apply orb_true_r. Qed.

(** A string includes each of its pieces. *)
Lemma includes_app (before k after : string) :
  includes (before ++ k ++ after) k = true.
Proof.
  induction before as [|c before IH]; simpl append.
  - apply includes_here, prefix_app.
  - apply includes_later, IH.
Qed.

(** What is included is not empty, unless the needle is. *)
Lemma includes_truthy (s needle : string) :
  includes s needle = true -> truthy needle = true -> truthy s = true.
Proof. destruct s, needle; simpl; intros; congruence. Qed.

Lemma trimStart_twice (s : string) : trimStart (trimStart s) = trimStart s.
Proof.
  induction s as [|c s IH]; simpl; [reflexivity|].
  destruct (isSpace c) eqn:E; [exact IH|]. simpl. rewrite E. reflexivity.
Qed.

(** The first character of a string cut at the start is no white
    space. *)
Lemma trimStart_head (s : string) (c : ascii) (rest : string) :
  trimStart s = String c rest -> isSpace c = false.
Proof.
  induction s as [|d s IH]; simpl; [discriminate|].
  destruct (isSpace d) eqn:E; [exact IH|]. intros [= <- _]. exact E.
Qed.

Lemma trimEnd_twice (s : string) : trimEnd (trimEnd s) = trimEnd s.
Proof.
  induction s as [|c s IH]; simpl; [reflexivity|].
  destruct (trimEnd s) as [|d kept] eqn:E.
  - destruct (isSpace c) eqn:Ec; simpl; [reflexivity|]. rewrite Ec. reflexivity.
  - simpl in *. rewrite IH. reflexivity.
Qed.

(** Cutting at the end keeps the first character that is no white
    space. *)
Lemma trimEnd_head (c : ascii) (rest : string) :
  isSpace c = false -> exists kept, trimEnd (String c rest) = String c kept.
Proof.
  intros E. simpl. destruct (trimEnd rest); [rewrite E|]; eauto.
Qed.

(** The last character of a string cut at the end is no white space. *)
Lemma trimEnd_last (s before : string) (c : ascii) :
  trimEnd s = before ++ String c EmptyString -> isSpace c = false.
Proof.
  revert before. induction s as [|d s IH]; intros before; simpl.
  - destruct before; discriminate.
  - destruct (trimEnd s) as [|e kept] eqn:E.
    + destruct (isSpace d) eqn:Ed.
      * destruct before; discriminate.
      * destruct before as [|b before]; simpl.
        -- intros H. inversion H; subst. exact Ed.
        -- intros H. inversion H. destruct before; discriminate.
    + destruct before as [|b before]; simpl.
      * intros H. inversion H.
      * intros H. inversion H. apply (IH before). assumption.
Qed.

Lemma trim_twice (s : string) : trim (trim s) = trim s.
Proof.
  unfold trim. destruct (trimStart s) as [|c rest] eqn:E; [reflexivity|].
  pose proof (@trimStart_head s c rest E) as Hc.
  destruct (@trimEnd_head c rest Hc) as [kept Hk]. rewrite Hk.
  simpl trimStart. rewrite Hc. rewrite <- Hk. apply trimEnd_twice.
Qed.

Lemma trim_head (s : string) (c : ascii) (rest : string) :
  trim s = String c rest -> isSpace c = false.
Proof.
  unfold trim. destruct (trimStart s) as [|d u] eqn:E; [discriminate|].
  pose proof (@trimStart_head s d u E) as Hd.
  destruct (@trimEnd_head d u Hd) as [kept Hk]. rewrite Hk.
  intros [= <- _]. exact Hd.
Qed.

Lemma trimStart_allSpace (s : string) :
  Shape.allSpace s = true -> trimStart s = EmptyString.
Proof.
  induction s as [|c s IH]; simpl; [reflexivity|].
  intros H. apply andb_prop in H as [Hc Hs]. rewrite Hc. exact (IH Hs).
Qed.

Lemma split_noComma (s : string) :
  Shape.noComma s = true -> split "," s = [s].
Proof.
  induction s as [|c s IH]; simpl; [reflexivity|].
  intros H. apply andb_prop in H as [Hc Hs].
  apply negb_true_iff in Hc. rewrite Hc, (IH Hs). reflexivity.
Qed.

Lemma split_app (a b : string) :
  Shape.noComma a = true ->
  split "," (a ++ String "," b) = (a :: split "," b)%list.
Proof.
  induction a as [|c a IH]; simpl; [reflexivity|].
  intros H. apply andb_prop in H as [Hc Ha].
  apply negb_true_iff in Hc. rewrite Hc, (IH Ha). reflexivity.
Qed.

Lemma noComma_app (a b : string) :
  Shape.noComma (a ++ b) = Shape.noComma a && Shape.noComma b.
Proof.
  induction a as [|c a IH]; simpl; [reflexivity|].
  rewrite IH. apply andb_assoc.
Qed.

Lemma string_app_assoc (a b c : string) : (a ++ b) ++ c = a ++ b ++ c.
Proof. induction a as [|x a IH]; simpl; [reflexivity | now rewrite IH]. Qed.

(** The payload of a data URL is the piece after its first comma. *)
Lemma payload_of_data_url (mime payload : string) :
  Shape.noComma mime = true -> Shape.noComma payload = true ->
  nth 1 (split "," ("data:" ++ mime ++ ";base64," ++ payload)) EmptyString
  = payload.
Proof.
  intros Hm Hp.
  assert (E : "data:" ++ mime ++ ";base64," ++ payload
              = ("data:" ++ mime ++ ";base64") ++ String "," payload).
  { rewrite !string_app_assoc. reflexivity. }
  rewrite E, split_app, split_noComma; [reflexivity | exact Hp |].
  rewrite !noComma_app, Hm. reflexivity.
Qed.

End JsFacts.

(* ================================================================== *)
(** * More on the generation client *)
(* ================================================================== *)

Module GeminiServiceMore.

Import GeminiService JsFacts.

Open Scope string_scope.

Lemma toLowerCase_truthy (m : string) :
  truthy (toLowerCase m) = true -> truthy m = true.
Proof. destruct m; simpl; congruence. Qed.

(** The value of [handleGeminiError], case by case. *)
Lemma handleGeminiError_value (e : Thrown) (context : string) :
  exists m : string,
    valueOf (handleGeminiError e context) = JsError m
    /\ truthy m = true
    /\ (m = invalidKeyMessage
        \/ m = rateLimitMessage
        \/ m = unexpectedMessage context
        \/ (e = JsError m
            /\ includes (toLowerCase m) "did not return an image" = true)).
Proof.
  unfold handleGeminiError, valueOf; simpl.
  destruct e as [m|].
  - destruct (includes (toLowerCase m) "api key not valid").
    + exists invalidKeyMessage. repeat split. left. reflexivity.
    + destruct (includes (toLowerCase m) "rate limit").
      * exists rateLimitMessage. repeat split. right. left. reflexivity.
      * destruct (includes (toLowerCase m) "did not return an image") eqn:E.
        -- exists m. split; [reflexivity|]. split.
           ++ apply toLowerCase_truthy.
              exact (@includes_truthy _ _ E eq_refl).
           ++ right. right. right. split; [reflexivity | exact E].
        -- exists (unexpectedMessage context). repeat split.
           right. right. left. reflexivity.
  - exists (unexpectedMessage context). repeat split.
    right. right. left. reflexivity.
Qed.


(** X1.  Whatever is caught and whatever the context, [handleGeminiError]
    writes exactly one line to the console and yields an [Error] whose
    message is not empty: the message about the API key, the one about
    the request limit, the generic one that names the context, or the
    message of the error it was given, and this only when that message
    says that the model did not return an image. *)
Theorem handleGeminiError_reports (e : Thrown) (context : string) :
  logOf (handleGeminiError e context) = ["Error during " ++ context ++ ":"]
  /\ exists m : string,
       valueOf (handleGeminiError e context) = JsError m
       /\ truthy m = true
       /\ (m = invalidKeyMessage
           \/ m = rateLimitMessage
           \/ m = unexpectedMessage context
           \/ (e = JsError m
               /\ includes (toLowerCase m) "did not return an image" = true)).
Proof.
  split; [reflexivity|].
  unfold handleGeminiError, valueOf; simpl.
  destruct e as [m|]; [|exists (unexpectedMessage context); repeat split; tauto].
  destruct (includes (toLowerCase m) "api key not valid");
    [exists invalidKeyMessage; repeat split; tauto|].
  destruct (includes (toLowerCase m) "rate limit");
    [exists rateLimitMessage; repeat split; tauto|].
  destruct (includes (toLowerCase m) "did not return an image") eqn:E;
    [|exists (unexpectedMessage context); repeat split; tauto].
  exists m. split; [reflexivity|]. split; [|tauto].
  apply toLowerCase_truthy. exact (@includes_truthy _ _ E eq_refl).
Qed.

(** X2.  The phrases are looked for without regard to letter case and
    anywhere in the message, the one about the API key first: a message
    that holds "api key not valid" in any letter case is answered with
    the message about the API key, whatever else it says; a message that
    holds "rate limit" in any letter case, and not the phrase about the
    key, with the message about the request limit. *)
Theorem handleGeminiError_phrases (before k after context : string) :
  (toLowerCase k = "api key not valid" ->
   valueOf (handleGeminiError (JsError (before ++ k ++ after)) context)
   = JsError invalidKeyMessage)
  /\ (toLowerCase k = "rate limit" ->
      includes (toLowerCase (before ++ k ++ after)) "api key not valid" = false ->
      valueOf (handleGeminiError (JsError (before ++ k ++ after)) context)
      = JsError rateLimitMessage).
Proof.
  split.
  - intros Hk. unfold handleGeminiError, valueOf; simpl.
    rewrite !toLowerCase_app, Hk, includes_app. reflexivity.
  - intros Hk Hno. unfold handleGeminiError, valueOf; simpl.
    rewrite Hno. rewrite !toLowerCase_app, Hk, includes_app. reflexivity.
Qed.

Lemma handleGeminiError_phrases_witness :
  toLowerCase "API Key Not Valid" = "api key not valid"
  /\ valueOf (handleGeminiError
               (JsError "400: API Key Not Valid. Also: rate limit exceeded.")
               "image generation")
     = JsError invalidKeyMessage
  /\ valueOf (handleGeminiError (JsError "429 Rate Limit reached")
               "prompt generation")
     = JsError rateLimitMessage.
Proof.
  split; [reflexivity|]. split.
  - apply (proj1 (handleGeminiError_phrases "400: " "API Key Not Valid"
                    ". Also: rate limit exceeded." "image generation")).
    reflexivity.
  - apply (proj2 (handleGeminiError_phrases "429 " "Rate Limit"
                    " reached" "prompt generation")); reflexivity.
Defined.

Section WithRemote.

Variable ai : Genai.Remote.

(** X3.  An answer without text, or with the empty text, makes
    [generateDescriptivePrompt] fail, and the error that reaches the
    caller is the generic one for prompt generation: the message that
    the model returned an empty prompt is thrown inside the [try] and
    replaced by [handleGeminiError]. *)
Theorem generateDescriptivePrompt_empty_answer (settings : Types.StyleSettings)
  (styleImage : option EncodedImage)
  (response : Genai.GenerateContentResponse) :
  ai {| Genai.model := promptGenerationModel;
        Genai.contents :=
          (Genai.textPart (textPrompt settings styleImage)
           :: stylePart styleImage)%list;
        Genai.responseModalities := None |}
  = Genai.Responds response ->
  Genai.responseText response = None
  \/ Genai.responseText response = Some EmptyString ->
  generateDescriptivePrompt ai settings styleImage
  = (["Error during prompt generation:"],
     Raises (JsError "An unexpected error occurred during prompt generation. Please check the console for details.")).
Proof.
  intros Hai Hempty. unfold generateDescriptivePrompt. rewrite Hai.
  destruct Hempty as [-> | ->]; reflexivity.
Qed.

(** X4.  A prompt that [generateDescriptivePrompt] returns is the text of
    the answer with the white space at both ends removed: removing it
    again changes nothing, and the prompt neither starts nor ends with
    a white-space character. *)
Theorem generateDescriptivePrompt_trimmed (settings : Types.StyleSettings)
  (styleImage : option EncodedImage) (p : string) :
  valueOf (generateDescriptivePrompt ai settings styleImage) = Returns p ->
  trim p = p
  /\ (forall c rest, p = String c rest -> isSpace c = false)
  /\ (forall before c, p = before ++ String c EmptyString -> isSpace c = false).
Proof.
  unfold generateDescriptivePrompt.
  destruct (ai _) as [e | response].
  - simpl. destruct (handleGeminiError e "prompt generation"). discriminate.
  - destruct (Genai.responseText response) as [t|]; [|discriminate].
    destruct (truthy t); [|discriminate].
    simpl. intros [= <-]. split; [apply trim_twice|]. split.
    + intros c rest H. exact (@trim_head t c rest H).
    + intros before c H. unfold trim in H.
      exact (@trimEnd_last (trimStart t) before c H).
Qed.

End WithRemote.

Lemma generateDescriptivePrompt_empty_answer_witness :
  Genai.responseText Samples.emptyAnswer = Some EmptyString
  /\ valueOf (generateDescriptivePrompt Samples.emptyRemote
                Samples.studioSettings None)
     = Raises (JsError "An unexpected error occurred during prompt generation. Please check the console for details.").
Proof.
  split; [reflexivity|].
  rewrite (@generateDescriptivePrompt_empty_answer Samples.emptyRemote
             Samples.studioSettings None Samples.emptyAnswer eq_refl
             (or_intror eq_refl)).
  reflexivity.
Defined.

Lemma generateDescriptivePrompt_trimmed_witness :
  valueOf (generateDescriptivePrompt Samples.paddedRemote
             Samples.studioSettings None)
  = Returns "A moody studio shot."
  /\ trim "A moody studio shot." = "A moody studio shot.".
Proof.
  assert (H : valueOf (generateDescriptivePrompt Samples.paddedRemote
                         Samples.studioSettings None)
              = Returns "A moody studio shot.") by reflexivity.
  split; [exact H|].
  exact (proj1 (@generateDescriptivePrompt_trimmed Samples.paddedRemote
                  Samples.studioSettings None "A moody studio shot." H)).
Defined.

(** X5.  [fileToBase64] splits a data URL at its comma: for a file of a
    type without comma that the reader renders as the data URL of a
    payload without comma, the image it resolves with carries that
    payload and the declared type of the file, so that the data URL built
    from the two is the one the reader gave. *)
Theorem fileToBase64_round_trip (file : File) (payload : string) :
  Shape.noComma (type file) = true ->
  Shape.noComma payload = true ->
  readAsDataURL file = Some ("data:" ++ type file ++ ";base64," ++ payload) ->
  exists image : EncodedImage,
    fileToBase64 file = Returns image
    /\ base64 image = payload
    /\ mimeType image = type file
    /\ Some ("data:" ++ mimeType image ++ ";base64," ++ base64 image)
       = readAsDataURL file.
Proof.
  intros Ht Hp Hread. unfold fileToBase64. rewrite Hread.
  rewrite (payload_of_data_url _ _ Ht Hp).
  eexists. split; [reflexivity|]. simpl. auto.
Qed.

Lemma fileToBase64_round_trip_witness :
  Shape.noComma "/9j/4AAQ" = true
  /\ fileToBase64 Samples.jpeg5MiB
     = Returns {| base64 := "/9j/4AAQ"; mimeType := "image/jpeg" |}.
Proof.
  split; [reflexivity|].
  destruct (@fileToBase64_round_trip Samples.jpeg5MiB "/9j/4AAQ"
              eq_refl eq_refl eq_refl)
    as (image & Hret & Hpayload & Hmime & _).
  rewrite Hret. destruct image as [b m]. simpl in *. subst. reflexivity.
Defined.

(** What [editProductImage] yields on an answer: the search, with the
    error of an answer without image, passed through the [catch]. *)
Lemma editProductImage_on_answer (ai : Genai.Remote)
  (productImage : EncodedImage) (prompt : string)
  (styleImage : option EncodedImage)
  (response : Genai.GenerateContentResponse) :
  ai (editRequest productImage prompt styleImage) = Genai.Responds response ->
  editProductImage ai productImage prompt styleImage
  = match searchAnswer response with
    | Returns (Some url) => ([], Returns url)
    | Returns None =>
        (["Error during image generation:"], Raises (JsError noImageMessage))
    | Raises e =>
        (["Error during image generation:"],
         Raises (valueOf (handleGeminiError e "image generation")))
    end.
Proof.
  intros Hai. unfold editProductImage. rewrite Hai.
  destruct (searchAnswer response) as [[url|]|e]; reflexivity.
Qed.




(** X21.  [editProductImage] reads the first candidate only: on an
    answer with candidates, the value and the log of the call are those on
    the answer that holds the first candidate alone, so that an image in a
    later candidate is never returned. *)
Theorem editProductImage_first_candidate_only (ai : Genai.Remote)
  (productImage : EncodedImage) (prompt : string)
  (styleImage : option EncodedImage)
  (response : Genai.GenerateContentResponse)
  (first : Genai.Candidate) (others : list Genai.Candidate) :
  ai (editRequest productImage prompt styleImage) = Genai.Responds response ->
  Genai.candidates response = Some (first :: others) ->
  editProductImage ai productImage prompt styleImage
  = editProductImage
      (fun _ =>
         Genai.Responds
           {| Genai.responseText := Genai.responseText response;
              Genai.candidates := Some [first] |})
      productImage prompt styleImage.
Proof.
  intros Hai Hcs.
  rewrite (@editProductImage_on_answer ai productImage prompt styleImage
             response Hai).
  rewrite (@editProductImage_on_answer _ productImage prompt styleImage
             _ eq_refl).
  unfold searchAnswer. rewrite Hcs. reflexivity.
Qed.

Lemma editProductImage_first_candidate_only_witness :
  Shape.holdsImage Samples.secondCandidateAnswer = true
  /\ editProductImage Samples.secondCandidateRemote Samples.product
       "a studio shot" None
     = editProductImage Samples.firstCandidateRemote Samples.product
         "a studio shot" None.
Proof.
  split; [reflexivity|].
  exact (@editProductImage_first_candidate_only Samples.secondCandidateRemote
           Samples.product "a studio shot" None Samples.secondCandidateAnswer
           _ _ eq_refl eq_refl).
Defined.

End GeminiServiceMore.

(* ================================================================== *)
(** * More on the handlers of [App] *)
(* ================================================================== *)

Module AppMore.

Import App JsFacts.

Open Scope string_scope.

Lemma supported_noComma (t : string) :
  t = "image/jpeg" \/ t = "image/png" \/ t = "image/webp" ->
  Shape.noComma t = true.
Proof. intros [-> | [-> | ->]]; reflexivity. Qed.

Lemma gate_passed (file : GeminiService.File) :
  GeminiService.type file = "image/jpeg"
  \/ GeminiService.type file = "image/png"
  \/ GeminiService.type file = "image/webp" ->
  (GeminiService.size file <= 10 * 1024 * 1024)%Z ->
  includesType SUPPORTED_MIME_TYPES (GeminiService.type file) = true
  /\ (GeminiService.size file >? MAX_FILE_SIZE_BYTES)%Z = false.
Proof.
  intros Ht Hs. split.
  - apply AppFacts.includesType_supported. exact Ht.
  - apply AppFacts.tooLarge_iff. exact Hs.
Qed.

(** X6.  A product upload that passes the gate and is read as the data
    URL of a payload without comma: the image handed to the crop modal is
    the very data URL the reader gave, with the declared type; the crop of
    an earlier product image is dropped and the modal opens; the error is
    cleared; the style reference, the prompt, the generated image and the
    settings are as before, and nothing is logged. *)
Theorem product_upload_accepted (file : GeminiService.File) (payload : string)
  (s : State) :
  GeminiService.type file = "image/jpeg"
  \/ GeminiService.type file = "image/png"
  \/ GeminiService.type file = "image/webp" ->
  (GeminiService.size file <= 10 * 1024 * 1024)%Z ->
  Shape.noComma payload = true ->
  GeminiService.readAsDataURL file
  = Some ("data:" ++ GeminiService.type file ++ ";base64," ++ payload) ->
  let after := valueOf (handleFileUpload file product s) in
  option_map Original.dataUrl (originalProductImage after)
  = GeminiService.readAsDataURL file
  /\ option_map Original.mimeType (originalProductImage after)
     = Some (GeminiService.type file)
  /\ productImage after = None
  /\ isCropModalOpen after = true
  /\ error after = None
  /\ styleReferenceImage after = styleReferenceImage s
  /\ prompt after = prompt s
  /\ generatedImage after = generatedImage s
  /\ aspectRatio after = aspectRatio s
  /\ lightingStyle after = lightingStyle s
  /\ cameraPerspective after = cameraPerspective s
  /\ logOf (handleFileUpload file product s) = [].
Proof.
  intros Ht Hs Hp Hread after. subst after.
  destruct (gate_passed file Ht Hs) as [Hgate Hsize].
  unfold handleFileUpload, GeminiService.fileToBase64.
  rewrite Hgate, Hsize, Hread. cbv beta iota.
  rewrite (payload_of_data_url _ _ (supported_noComma Ht) Hp).
  simpl. repeat split.
Qed.

Lemma product_upload_accepted_witness :
  (5 * 1024 * 1024 <= 10 * 1024 * 1024)%Z
  /\ option_map Original.dataUrl
       (originalProductImage
          (valueOf (handleFileUpload Samples.jpeg5MiB product
                      Samples.afterGeneration)))
     = Some "data:image/jpeg;base64,/9j/4AAQ"
  /\ productImage
       (valueOf (handleFileUpload Samples.jpeg5MiB product
                   Samples.afterGeneration))
     = None.
Proof.
  assert (Hsize : (5 * 1024 * 1024 <= 10 * 1024 * 1024)%Z) by lia.
  split; [exact Hsize|].
  destruct (@product_upload_accepted Samples.jpeg5MiB "/9j/4AAQ"
              Samples.afterGeneration (or_introl eq_refl) Hsize eq_refl eq_refl)
    as (Hurl & _ & Hcrop & _).
  split; [exact Hurl | exact Hcrop].
Defined.

(** X8.  A file that passes the gate and that the reader fails on: what
    is rejected is the event of the reader, which has no message, so the
    banner reads "Error loading product image: undefined. Please try a
    different file." (or "style image"); one line is logged, and the
    state is otherwise as before: no modal opens and an earlier crop is
    kept. *)
Theorem upload_read_failure (file : GeminiService.File) (t : UploadType)
  (s : State) :
  GeminiService.type file = "image/jpeg"
  \/ GeminiService.type file = "image/png"
  \/ GeminiService.type file = "image/webp" ->
  (GeminiService.size file <= 10 * 1024 * 1024)%Z ->
  GeminiService.readAsDataURL file = None ->
  handleFileUpload file t s
  = (["Failed to process " ++ uploadTypeText t ++ " image:"],
     setError
       (Some ("Error loading " ++ uploadTypeText t
              ++ " image: undefined. Please try a different file."))
       (setError None s))
  /\ banner (valueOf (handleFileUpload file t s))
     = Some ("Error loading " ++ uploadTypeText t
             ++ " image: undefined. Please try a different file.")
  /\ productImage (valueOf (handleFileUpload file t s)) = productImage s
  /\ originalProductImage (valueOf (handleFileUpload file t s))
     = originalProductImage s
  /\ isCropModalOpen (valueOf (handleFileUpload file t s)) = isCropModalOpen s
  /\ styleReferenceImage (valueOf (handleFileUpload file t s))
     = styleReferenceImage s.
Proof.
  intros Ht Hs Hread.
  destruct (gate_passed file Ht Hs) as [Hgate Hsize].
  unfold handleFileUpload, GeminiService.fileToBase64.
  rewrite Hgate, Hsize, Hread. destruct t; simpl; repeat split.
Qed.

Lemma upload_read_failure_witness :
  (1024 <= 10 * 1024 * 1024)%Z
  /\ banner (valueOf (handleFileUpload Samples.unreadableJpeg product
                        Samples.afterGeneration))
     = Some "Error loading product image: undefined. Please try a different file.".
Proof.
  assert (Hsize : (1024 <= 10 * 1024 * 1024)%Z) by lia.
  split; [exact Hsize|].
  exact (proj1 (proj2 (@upload_read_failure Samples.unreadableJpeg product
                         Samples.afterGeneration (or_introl eq_refl) Hsize
                         eq_refl))).
Defined.

Section WithRemote.

Variable ai : Genai.Remote.

(** What [generateDescriptivePrompt] and [editProductImage] raise has
    gone through [handleGeminiError]. *)
Lemma generateDescriptivePrompt_raises (settings : Types.StyleSettings)
  (styleImage : option EncodedImage) (e : Thrown) :
  valueOf (GeminiService.generateDescriptivePrompt ai settings styleImage)
  = Raises e ->
  exists caught,
    e = valueOf (GeminiService.handleGeminiError caught "prompt generation").
Proof.
  unfold GeminiService.generateDescriptivePrompt.
  set (attempt := match ai _ with Genai.Throws _ => _ | _ => _ end).
  destruct attempt as [p | caught]; simpl; [discriminate|].
  intros [= <-]. exists caught. reflexivity.
Qed.

Lemma editProductImage_raises (image : EncodedImage) (text : string)
  (styleImage : option EncodedImage) (e : Thrown) :
  valueOf (GeminiService.editProductImage ai image text styleImage)
  = Raises e ->
  exists caught,
    e = valueOf (GeminiService.handleGeminiError caught "image generation").
Proof.
  unfold GeminiService.editProductImage.
  set (attempt := match ai _ with Genai.Throws _ => _ | _ => _ end).
  destruct attempt as [p | caught]; simpl; [discriminate|].
  intros [= <-]. exists caught. reflexivity.
Qed.

(** X9.  [updatePrompt], whatever the remote service does.  It ends with
    the prompt spinner off and leaves the images, the modal flag and the
    settings alone.  Either the service returned a prompt, which replaces
    the one in the state, edits of the user included, and the error is
    cleared; or the prompt is as before and the banner shows the message of
    the error the service raised, which is never empty, so that the
    fallback text for an unknown error is never what is shown. *)
Theorem updatePrompt_outcome (s : State) :
  let call :=
    GeminiService.generateDescriptivePrompt ai
      {| Types.aspectRatio := aspectRatio s;
         Types.lightingStyle := lightingStyle s;
         Types.cameraPerspective := cameraPerspective s |}
      (styleReferenceImage s) in
  let after := valueOf (updatePrompt ai s) in
  isGeneratingPrompt after = false
  /\ productImage after = productImage s
  /\ originalProductImage after = originalProductImage s
  /\ styleReferenceImage after = styleReferenceImage s
  /\ generatedImage after = generatedImage s
  /\ isCropModalOpen after = isCropModalOpen s
  /\ aspectRatio after = aspectRatio s
  /\ lightingStyle after = lightingStyle s
  /\ cameraPerspective after = cameraPerspective s
  /\ ((exists p, valueOf call = Returns p
                 /\ prompt after = p /\ error after = None)
      \/ (exists m, valueOf call = Raises (JsError m)
                    /\ prompt after = prompt s
                    /\ banner after = Some m
                    /\ m <> unknownPromptMessage)).
Proof.
  intros call after. subst after. unfold updatePrompt. fold call.
  destruct call as [log r] eqn:Hcall.
  assert (Hvalue : valueOf call = r) by (rewrite Hcall; reflexivity).
  destruct r as [p | e]; simpl.
  - repeat split. left. exists p. repeat split.
  - repeat split. right.
    destruct (generateDescriptivePrompt_raises _ _ Hvalue) as [caught ->].
    destruct (GeminiServiceMore.handleGeminiError_value caught
                "prompt generation") as (m & Hm & Htruthy & Hcases).
    rewrite Hm. exists m. split; [reflexivity|]. split; [reflexivity|].
    split.
    + unfold banner, messageOr; simpl. rewrite Htruthy, Htruthy. reflexivity.
    + destruct Hcases as [-> | [-> | [-> | [_ Hkept]]]]; try discriminate.
      intros ->. vm_compute in Hkept. discriminate.
Qed.

(** X10.  Without a product image, or with an empty prompt,
    [handleGenerateImage] does not consult the remote service: the result
    is the same for every service, nothing is logged, the banner asks for
    the missing input, and everything else, the generated image of an
    earlier run included, is as before.  Without a product image the
    generate button is disabled, so a click reaches this only with an
    empty prompt. *)
Theorem handleGenerateImage_missing_input_frame (other : Genai.Remote)
  (s : State) :
  productImage s = None \/ prompt s = EmptyString ->
  handleGenerateImage ai s = handleGenerateImage other s
  /\ logOf (handleGenerateImage ai s) = []
  /\ banner (valueOf (handleGenerateImage ai s))
     = Some "Please upload and crop a product image, and ensure a prompt is generated."
  /\ generatedImage (valueOf (handleGenerateImage ai s)) = generatedImage s
  /\ isGeneratingImage (valueOf (handleGenerateImage ai s))
     = isGeneratingImage s
  /\ productImage (valueOf (handleGenerateImage ai s)) = productImage s
  /\ prompt (valueOf (handleGenerateImage ai s)) = prompt s
  /\ (productImage s = None -> generateDisabled s = true).
Proof.
  intros Hmissing.
  rewrite (BannerFacts.handleGenerateImage_missing_input ai s Hmissing).
  rewrite (BannerFacts.handleGenerateImage_missing_input other s Hmissing).
  repeat split. intros H. unfold generateDisabled. rewrite H.
  apply orb_true_r.
Qed.

(** X11.  When the image edit returns a URL, [handleGenerateImage] stores
    it as the generated image and clears the error of an earlier run; the
    spinner is off, so the result pane displays the URL, and a download
    links to it under the name ai-photo-studio-result.png.  The prompt
    and the product image are as before. *)
Theorem handleGenerateImage_success (s : State) (image : EncodedImage)
  (url : string) :
  productImage s = Some image ->
  truthy (prompt s) = true ->
  valueOf (GeminiService.editProductImage ai image (prompt s)
             (styleReferenceImage s)) = Returns url ->
  truthy url = true ->
  let after := valueOf (handleGenerateImage ai s) in
  generatedImage after = Some url
  /\ error after = None
  /\ isGeneratingImage after = false
  /\ displayedResult after = Some url
  /\ handleDownloadImage after
     = Some {| href := url; download := "ai-photo-studio-result.png" |}
  /\ prompt after = prompt s
  /\ productImage after = productImage s.
Proof.
  intros Himage Hprompt Hcall Hurl after. subst after.
  unfold handleGenerateImage. rewrite Himage, Hprompt.
  destruct (GeminiService.editProductImage ai image (prompt s)
              (styleReferenceImage s)) as [log r].
  unfold valueOf in Hcall. simpl in Hcall. subst r. simpl.
  unfold handleDownloadImage; simpl. rewrite Hurl, Himage. repeat split.
Qed.

End WithRemote.

Lemma updatePrompt_outcome_witness :
  banner (valueOf (updatePrompt Samples.keyRemote Samples.afterGeneration))
  = Some "Invalid API Key. Please check if the API key is configured correctly."
  /\ prompt (valueOf (updatePrompt Samples.keyRemote Samples.afterGeneration))
     = "a studio shot".
Proof.
  destruct (updatePrompt_outcome Samples.keyRemote Samples.afterGeneration)
    as (_ & _ & _ & _ & _ & _ & _ & _ & _ & [Hok | Hfail]).
  - destruct Hok as (p & Hp & _). discriminate Hp.
  - destruct Hfail as (m & Hm & Hprompt & Hbanner & _).
    injection Hm as <-. split; [exact Hbanner | exact Hprompt].
Defined.

Lemma handleGenerateImage_missing_input_frame_witness :
  prompt (setPrompt EmptyString Samples.afterGeneration) = EmptyString
  /\ generatedImage
       (valueOf (handleGenerateImage Samples.imageRemote
                   (setPrompt EmptyString Samples.afterGeneration)))
     = Some "data:image/png;base64,T0xE".
Proof.
  split; [reflexivity|].
  exact (proj1 (proj2 (proj2 (proj2
           (@handleGenerateImage_missing_input_frame Samples.imageRemote
              Samples.textRemote
              (setPrompt EmptyString Samples.afterGeneration)
              (or_intror eq_refl)))))).
Defined.

Lemma handleGenerateImage_success_witness :
  productImage Samples.afterGeneration = Some Samples.product
  /\ handleDownloadImage
       (valueOf (handleGenerateImage Samples.imageRemote
                   Samples.afterGeneration))
     = Some {| href := "data:image/png;base64,SU1H";
               download := "ai-photo-studio-result.png" |}.
Proof.
  split; [reflexivity|].
  destruct (@handleGenerateImage_success Samples.imageRemote
              Samples.afterGeneration Samples.product
              "data:image/png;base64,SU1H" eq_refl eq_refl eq_refl eq_refl)
    as (_ & _ & _ & _ & Hdownload & _).
  exact Hdownload.
Defined.

(** X7.  A style upload that passes the gate and is read as the data
    URL of a payload without comma, with the prompt effect it sets off:
    the style reference is the payload with the declared type; the product
    image, its original, the modal flag, the generated image and the
    settings are as before; the prompt is synthesized anew with the new
    style reference, so that in the end either the prompt is the one the
    service returned and there is no error, or the prompt is as before and
    the banner shows the message of the service's error; the spinner of
    the prompt is off.  A product upload sets off no synthesis. *)
Theorem style_upload_and_effect (ai : Genai.Remote)
  (file : GeminiService.File) (payload : string) (s : State) :
  GeminiService.type file = "image/jpeg"
  \/ GeminiService.type file = "image/png"
  \/ GeminiService.type file = "image/webp" ->
  (GeminiService.size file <= 10 * 1024 * 1024)%Z ->
  Shape.noComma payload = true ->
  GeminiService.readAsDataURL file
  = Some ("data:" ++ GeminiService.type file ++ ";base64," ++ payload) ->
  let reference :=
    {| base64 := payload; mimeType := GeminiService.type file |} in
  let call :=
    GeminiService.generateDescriptivePrompt ai
      {| Types.aspectRatio := aspectRatio s;
         Types.lightingStyle := lightingStyle s;
         Types.cameraPerspective := cameraPerspective s |}
      (Some reference) in
  let after := valueOf (uploadAndEffect ai file style s) in
  styleReferenceImage after = Some reference
  /\ productImage after = productImage s
  /\ originalProductImage after = originalProductImage s
  /\ isCropModalOpen after = isCropModalOpen s
  /\ generatedImage after = generatedImage s
  /\ aspectRatio after = aspectRatio s
  /\ lightingStyle after = lightingStyle s
  /\ cameraPerspective after = cameraPerspective s
  /\ isGeneratingPrompt after = false
  /\ ((exists p, valueOf call = Returns p
                 /\ prompt after = p /\ error after = None)
      \/ (exists m, valueOf call = Raises (JsError m)
                    /\ prompt after = prompt s
                    /\ banner after = Some m))
  /\ uploadAndEffect ai file product s = handleFileUpload file product s.
Proof.
  intros Ht Hs Hp Hread reference call after.
  destruct (gate_passed file Ht Hs) as [Hgate Hsize].
  assert (Hup : handleFileUpload file style s
                = ([], setStyleReferenceImage (Some reference)
                         (setError None s))).
  { unfold handleFileUpload, GeminiService.fileToBase64.
    rewrite Hgate, Hsize, Hread. cbv beta iota.
    rewrite (payload_of_data_url _ _ (supported_noComma Ht) Hp). reflexivity. }
  assert (Hsets : setsStyleReference file style = true).
  { unfold setsStyleReference. rewrite Hgate, Hsize, Hread. reflexivity. }
  assert (Hproduct : uploadAndEffect ai file product s
                     = handleFileUpload file product s).
  { unfold uploadAndEffect. simpl setsStyleReference.
    destruct (handleFileUpload file product s) as [log u]. simpl.
    rewrite app_nil_r. reflexivity. }
  subst after. unfold uploadAndEffect. rewrite Hup, Hsets.
  unfold bind, updatePrompt. cbn [styleReferenceImage setStyleReferenceImage
    aspectRatio lightingStyle cameraPerspective setError].
  fold reference. fold call.
  destruct call as [log r] eqn:Hcall.
  assert (Hvalue : valueOf call = r) by (rewrite Hcall; reflexivity).
  destruct r as [p | e]; simpl.
  - repeat split; try exact Hproduct. left. exists p. repeat split.
  - repeat split; try exact Hproduct. right.
    destruct (@generateDescriptivePrompt_raises ai _ _ e Hvalue)
      as [caught ->].
    destruct (GeminiServiceMore.handleGeminiError_value caught
                "prompt generation") as (m & Hm & Htruthy & _).
    rewrite Hm. exists m. split; [reflexivity|]. split; [reflexivity|].
    unfold banner, messageOr; simpl. rewrite Htruthy, Htruthy. reflexivity.
Qed.

Lemma style_upload_and_effect_witness :
  (5 * 1024 * 1024 <= 10 * 1024 * 1024)%Z
  /\ styleReferenceImage
       (valueOf (uploadAndEffect Samples.paddedRemote Samples.jpeg5MiB style
                   Samples.afterGeneration))
     = Some {| base64 := "/9j/4AAQ"; mimeType := "image/jpeg" |}
  /\ productImage
       (valueOf (uploadAndEffect Samples.paddedRemote Samples.jpeg5MiB style
                   Samples.afterGeneration))
     = Some Samples.product
  /\ prompt
       (valueOf (uploadAndEffect Samples.paddedRemote Samples.jpeg5MiB style
                   Samples.afterGeneration))
     = "A moody studio shot.".
Proof.
  assert (Hsize : (5 * 1024 * 1024 <= 10 * 1024 * 1024)%Z) by lia.
  split; [exact Hsize|].
  destruct (@style_upload_and_effect Samples.paddedRemote Samples.jpeg5MiB
              "/9j/4AAQ" Samples.afterGeneration (or_introl eq_refl) Hsize
              eq_refl eq_refl)
    as (Hstyle & Hproduct & _ & _ & _ & _ & _ & _ & _ & Hprompt & _).
  split; [exact Hstyle|]. split; [exact Hproduct|].
  destruct Hprompt as [(p & Hp & Hafter & _) | (m & Hm & _)].
  - rewrite Hafter. injection Hp as <-. reflexivity.
  - discriminate Hm.
Defined.

(** X12.  An answer whose text is nothing but white space counts as a
    prompt: [updatePrompt] stores the empty prompt without any error, and
    a click on the generate button then stops at the request for the
    missing input, whatever the remote service would answer. *)
Theorem updatePrompt_blank_answer (ai other : Genai.Remote) (s : State)
  (response : Genai.GenerateContentResponse) (t : string) :
  ai {| Genai.model := GeminiService.promptGenerationModel;
        Genai.contents :=
          (Genai.textPart
             (GeminiService.textPrompt
                {| Types.aspectRatio := aspectRatio s;
                   Types.lightingStyle := lightingStyle s;
                   Types.cameraPerspective := cameraPerspective s |}
                (styleReferenceImage s))
           :: GeminiService.stylePart (styleReferenceImage s))%list;
        Genai.responseModalities := None |}
  = Genai.Responds response ->
  Genai.responseText response = Some t ->
  truthy t = true ->
  Shape.allSpace t = true ->
  let after := valueOf (updatePrompt ai s) in
  prompt after = EmptyString
  /\ error after = None
  /\ logOf (updatePrompt ai s) = []
  /\ banner (valueOf (handleGenerateImage other after))
     = Some "Please upload and crop a product image, and ensure a prompt is generated.".
Proof.
  intros Hai Htext Htruthy Hblank after.
  assert (Hrun : updatePrompt ai s
                 = ([], setIsGeneratingPrompt false
                          (setPrompt EmptyString
                             (setError None (setIsGeneratingPrompt true s))))).
  { unfold updatePrompt, GeminiService.generateDescriptivePrompt.
    rewrite Hai, Htext, Htruthy. unfold trim.
    rewrite (trimStart_allSpace t Hblank). reflexivity. }
  subst after. rewrite Hrun. simpl. repeat split.
  rewrite BannerFacts.handleGenerateImage_missing_input;
    [reflexivity | right; reflexivity].
Qed.

Lemma updatePrompt_blank_answer_witness :
  Shape.allSpace "   " = true
  /\ prompt (valueOf (updatePrompt Samples.blankRemote Samples.afterGeneration))
     = EmptyString
  /\ error (valueOf (updatePrompt Samples.blankRemote Samples.afterGeneration))
     = None.
Proof.
  split; [reflexivity|].
  destruct (@updatePrompt_blank_answer Samples.blankRemote Samples.imageRemote
              Samples.afterGeneration Samples.blankAnswer "   "
              eq_refl eq_refl eq_refl eq_refl)
    as (Hprompt & Herror & _).
  split; [exact Hprompt | exact Herror].
Defined.

End AppMore.

(* ================================================================== *)
(** * More on the crop modal *)
(* ================================================================== *)

Module ImageCropModalMore.

Module RC := ReactImageCrop.
Import NumberFacts.

Abbreviation getCroppedImg := ImageCropModal.getCroppedImg.
Abbreviation settled := ImageCropModal.settled.
Abbreviation canvas := ImageCropModal.canvas.
Abbreviation scaleX := ImageCropModal.scaleX.
Abbreviation scaleY := ImageCropModal.scaleY.

(** X13.  When [getCroppedImg] resolves, on an image that has been
    decoded: one of positive natural size, on which [drawImage] does not
    throw.  The promise resolves exactly
    when the canvas gives a 2D context, [toBlob] passes a blob for the
    painted canvas and the reader ends with a result that is not empty;
    the image it resolves with has the payload of that result and the type
    that was asked for.  In every other case it is rejected, with one of
    the three messages of the function or with the event of the reader. *)
Theorem getCroppedImg_resolves (browser : Dom.Browser) (image : Img.t)
  (c : RC.Crop) (mime : string) :
  0 < Img.naturalWidth image -> 0 < Img.naturalHeight image ->
  let run := getCroppedImg browser image c mime in
  (forall out : EncodedImage,
      settled run = Returns out <->
      Dom.getContext2d browser = true
      /\ exists blob result,
           Dom.toBlob browser (canvas run) mime = Some blob
           /\ Dom.readAsDataURL browser blob = Dom.LoadEnd (Some result)
           /\ truthy result = true
           /\ out = {| base64 := nth 1 (split "," result) EmptyString;
                       mimeType := mime |})
  /\ ((exists out, settled run = Returns out)
      \/ settled run = Raises (JsError "Could not get canvas context")
      \/ settled run = Raises (JsError "Canvas is empty")
      \/ settled run = Raises (JsError "Failed to read blob as data URL")
      \/ settled run = Raises NonError).
Proof.
  intros _ _ run. subst run. unfold ImageCropModal.getCroppedImg.
  destruct (Dom.getContext2d browser); simpl.
  - set (painted := {| Dom.canvasWidth := _; Dom.canvasHeight := _;
                       Dom.drawn := _ |}).
    destruct (Dom.toBlob browser painted mime) as [blob|].
    + destruct (Dom.readAsDataURL browser blob) as [[result|]|] eqn:Hread.
      * destruct (truthy result) eqn:Htruthy.
        -- split; [|left; eauto].
           intros out. split.
           ++ intros [= <-]. split; [reflexivity|].
              exists blob, result. repeat split; assumption.
           ++ intros (_ & blob' & result' & [= <-] & Hread' & _ & ->).
              rewrite Hread in Hread'. injection Hread' as <-. reflexivity.
        -- split; [|auto].
           intros out. split; [discriminate|].
           intros (_ & blob' & result' & [= <-] & Hread' & Ht & _).
           rewrite Hread in Hread'. injection Hread' as <-. congruence.
      * split; [|auto].
        intros out. split; [discriminate|].
        intros (_ & blob' & result' & [= <-] & Hread' & _).
        rewrite Hread in Hread'. discriminate.
      * split; [|auto 6].
        intros out. split; [discriminate|].
        intros (_ & blob' & result' & [= <-] & Hread' & _).
        rewrite Hread in Hread'. discriminate.
    + split; [|auto].
      intros out. split; [discriminate|].
      intros (_ & blob' & result' & Hblob & _). discriminate.
  - split; [|auto].
    intros out. split; [discriminate|]. intros [H _]. discriminate.
Qed.

Lemma getCroppedImg_resolves_witness :
  0 < 1000
  /\ settled (getCroppedImg Samples.standardBrowser Samples.square1000
                Samples.halfCrop "image/png")
     = Returns {| base64 := "Q1JPUA=="; mimeType := "image/png" |}.
Proof.
  split; [reflexivity|].
  apply (proj1 (@getCroppedImg_resolves Samples.standardBrowser
                  Samples.square1000 Samples.halfCrop "image/png"
                  eq_refl eq_refl)).
  split; [reflexivity|].
  exists "PNG", "data:image/png;base64,Q1JPUA==". repeat split.
Defined.

(** The image a resolved export carries has the type that was asked
    for. *)
Lemma getCroppedImg_type (browser : Dom.Browser) (image : Img.t)
  (c : RC.Crop) (mime : string) (out : EncodedImage) :
  settled (getCroppedImg browser image c mime) = Returns out ->
  mimeType out = mime.
Proof.
  unfold ImageCropModal.getCroppedImg. destruct (Dom.getContext2d browser); simpl;
    [|discriminate].
  destruct (Dom.toBlob _ _ _) as [blob|]; [|discriminate].
  destruct (Dom.readAsDataURL browser blob) as [[result|]|];
    try discriminate.
  destruct (truthy result); [|discriminate]. intros [= <-]. reflexivity.
Qed.

(** X14.  The region that is copied stays inside the image when the
    numbers of the crop are displayed pixels inside the displayed image:
    it starts at or after the origin and ends at or before the natural
    width and height; it is drawn at the origin of the canvas in its own
    size, and the canvas, whose size is floored, is not larger than the
    region and less than one pixel smaller. *)
Theorem getCroppedImg_region_inside (browser : Dom.Browser) (image : Img.t)
  (c : RC.Crop) (mime : string) :
  Dom.getContext2d browser = true ->
  0 < Img.width image -> 0 < Img.height image ->
  0 <= Img.naturalWidth image -> 0 <= Img.naturalHeight image ->
  0 <= RC.x c -> 0 <= RC.width c -> RC.x c + RC.width c <= Img.width image ->
  0 <= RC.y c -> 0 <= RC.height c -> RC.y c + RC.height c <= Img.height image ->
  exists d : Dom.DrawImage,
    Dom.drawn (canvas (getCroppedImg browser image c mime)) = Some d
    /\ (0 <= Dom.sx d /\ Dom.sx d + Dom.sWidth d <= Img.naturalWidth image)
    /\ (0 <= Dom.sy d /\ Dom.sy d + Dom.sHeight d <= Img.naturalHeight image)
    /\ (Dom.dx d == 0 /\ Dom.dy d == 0
        /\ Dom.dWidth d == Dom.sWidth d /\ Dom.dHeight d == Dom.sHeight d)
    /\ (inject_Z (Dom.canvasWidth (canvas (getCroppedImg browser image c mime)))
        <= Dom.sWidth d
        /\ Dom.sWidth d
           < inject_Z (Dom.canvasWidth
                         (canvas (getCroppedImg browser image c mime)) + 1))
    /\ (inject_Z (Dom.canvasHeight (canvas (getCroppedImg browser image c mime)))
        <= Dom.sHeight d
        /\ Dom.sHeight d
           < inject_Z (Dom.canvasHeight
                         (canvas (getCroppedImg browser image c mime)) + 1)).
Proof.
  intros Hctx HW HH HnW HnH Hx Hw Hxw Hy Hh Hyh.
  rewrite (@CanvasExportFacts.getCroppedImg_region browser image c mime Hctx).
  destruct (CanvasExportFacts.getCroppedImg_canvas_size browser image c mime)
    as [-> ->].
  eexists. split; [reflexivity|].
  cbn [Dom.sx Dom.sy Dom.sWidth Dom.sHeight Dom.dx Dom.dy Dom.dWidth
       Dom.dHeight].
  assert (HW0 : ~ Img.width image == 0)
    by (intros E; rewrite E in HW; discriminate).
  assert (HH0 : ~ Img.height image == 0)
    by (intros E; rewrite E in HH; discriminate).
  assert (HsX : 0 <= scaleX image).
  { unfold ImageCropModal.scaleX. apply Qle_shift_div_l; [exact HW | lra]. }
  assert (HsY : 0 <= scaleY image).
  { unfold ImageCropModal.scaleY. apply Qle_shift_div_l; [exact HH | lra]. }
  assert (EX : Img.width image * scaleX image == Img.naturalWidth image)
    by (unfold ImageCropModal.scaleX; field; exact HW0).
  assert (EY : Img.height image * scaleY image == Img.naturalHeight image)
    by (unfold ImageCropModal.scaleY; field; exact HH0).
  split; [split|].
  - apply Qmult_le_0_compat; assumption.
  - rewrite <- Qmult_plus_distr_l, <- EX. apply Qmult_le_compat_r; assumption.
  - split; [split|].
    + apply Qmult_le_0_compat; assumption.
    + rewrite <- Qmult_plus_distr_l, <- EY.
      apply Qmult_le_compat_r; assumption.
    + split; [repeat split; reflexivity|].
      unfold Math_floor. split; split;
        [apply Qfloor_le | apply Qlt_floor | apply Qfloor_le | apply Qlt_floor].
Qed.

Lemma getCroppedImg_region_inside_witness :
  Dom.getContext2d Samples.standardBrowser = true
  /\ exists d : Dom.DrawImage,
       Dom.drawn (canvas (getCroppedImg Samples.standardBrowser
                            Samples.square1000 Samples.fullPixelCrop
                            "image/png")) = Some d
       /\ Dom.sx d + Dom.sWidth d <= 1000.
Proof.
  split; [reflexivity|].
  destruct (@getCroppedImg_region_inside Samples.standardBrowser
              Samples.square1000 Samples.fullPixelCrop "image/png" eq_refl
              eq_refl eq_refl)
    as (d & Hd & (_ & Hright) & _);
    try (intros H; discriminate H).
  exists d. split; [exact Hd | exact Hright].
Defined.

(** X22.  A crop whose numbers are the displayed size in pixels is
    exported at the natural size when the image is displayed at its
    natural size divided by a whole number in each direction: the scale
    factors and the products are then integers, below 2^53, which the
    doubles of the code hold as exactly as the rationals here. *)
Theorem getCroppedImg_full_pixel_crop_whole_scale (browser : Dom.Browser)
  (image : Img.t) (c : RC.Crop) (mime : string) (w h kx ky : Z) :
  (0 < w)%Z -> (0 < h)%Z -> (0 < kx)%Z -> (0 < ky)%Z ->
  (kx * w < 2 ^ 53)%Z -> (ky * h < 2 ^ 53)%Z ->
  Img.width image == inject_Z w ->
  Img.height image == inject_Z h ->
  Img.naturalWidth image == inject_Z (kx * w) ->
  Img.naturalHeight image == inject_Z (ky * h) ->
  RC.width c == Img.width image -> RC.height c == Img.height image ->
  Dom.canvasWidth (canvas (getCroppedImg browser image c mime)) = (kx * w)%Z
  /\ Dom.canvasHeight (canvas (getCroppedImg browser image c mime))
     = (ky * h)%Z.
Proof.
  intros Hw Hh _ _ _ _ HW HH HnW HnH Hcw Hch.
  destruct (CanvasExportFacts.getCroppedImg_canvas_size browser image c mime)
    as [-> ->].
  assert (Hw0 : ~ inject_Z w == 0).
  { intros E. unfold Qeq in E. simpl in E. lia. }
  assert (Hh0 : ~ inject_Z h == 0).
  { intros E. unfold Qeq in E. simpl in E. lia. }
  split; apply floor_of_integer.
  - rewrite Hcw, HnW, HW, inject_Z_mult. field. exact Hw0.
  - rewrite Hch, HnH, HH, inject_Z_mult. field. exact Hh0.
Qed.

Lemma getCroppedImg_full_pixel_crop_whole_scale_witness :
  (0 < 500)%Z /\ (2 * 500 < 2 ^ 53)%Z
  /\ Dom.canvasWidth
       (canvas (getCroppedImg Samples.standardBrowser Samples.square1000
                  Samples.fullPixelCrop "image/png")) = 1000%Z
  /\ Dom.canvasHeight
       (canvas (getCroppedImg Samples.standardBrowser Samples.square1000
                  Samples.fullPixelCrop "image/png")) = 1000%Z.
Proof.
  split; [reflexivity|]. split; [reflexivity|].
  apply (@getCroppedImg_full_pixel_crop_whole_scale Samples.standardBrowser
           Samples.square1000 Samples.fullPixelCrop "image/png" 500 500 2 2);
    reflexivity.
Defined.

End ImageCropModalMore.

(* ================================================================== *)
(** * More on the states of the modal and on the application around it *)
(* ================================================================== *)

Module StudioMore.

Module RC := ReactImageCrop.
Module M := ImageCropModal.
Import NumberFacts.

(** The image [handleSaveClick] passes to [onSave] has the type of the
    modal. *)
Lemma handleSaveClick_saved_type (browser : Dom.Browser) (m : M.Modal)
  (image : EncodedImage) :
  snd (valueOf (M.handleSaveClick browser m)) = Some image ->
  mimeType image = M.mimeType m.
Proof.
  unfold M.handleSaveClick.
  destruct (M.imgRef m) as [current|]; [|discriminate].
  destruct (M.crop m) as [c|]; [|discriminate].
  destruct (Qtruthy (RC.width c) && Qtruthy (RC.height c)); [|discriminate].
  destruct (M.settled (M.getCroppedImg browser current c (M.mimeType m)))
    as [out | e] eqn:Hrun; [|discriminate].
  simpl. intros [= <-].
  exact (@ImageCropModalMore.getCroppedImg_type browser current c
           (M.mimeType m) out Hrun).
Qed.

(** X15.  [handleSaveClick], whatever the browser does.  The crop, the
    zoom, the measured size, the element and the props of the modal are as
    before, and a modal that was not saving is not saving afterwards.
    [onSave] is called at most once, with an image of the type of the
    modal.  Without element, without crop, or with a crop of width or
    height zero, nothing happens at all. *)
Theorem handleSaveClick_frame (browser : Dom.Browser) (m : M.Modal) :
  let after := fst (valueOf (M.handleSaveClick browser m)) in
  let saved := snd (valueOf (M.handleSaveClick browser m)) in
  M.crop after = M.crop m
  /\ M.scale after = M.scale m
  /\ M.imgSize after = M.imgSize m
  /\ M.imgRef after = M.imgRef m
  /\ M.aspect after = M.aspect m
  /\ M.mimeType after = M.mimeType m
  /\ (M.isSaving m = false -> M.isSaving after = false)
  /\ (forall image, saved = Some image -> mimeType image = M.mimeType m)
  /\ (M.imgRef m = None
      \/ M.crop m = None
      \/ (exists c, M.crop m = Some c
                    /\ (RC.width c == 0 \/ RC.height c == 0)) ->
      M.handleSaveClick browser m = ([], (m, None))).
Proof.
  unfold M.handleSaveClick.
  destruct (M.imgRef m) as [current|] eqn:Href;
    [|simpl; repeat split; auto; discriminate].
  destruct (M.crop m) as [c|] eqn:Hcrop;
    [|simpl; repeat split; auto; discriminate].
  destruct (Qtruthy (RC.width c) && Qtruthy (RC.height c)) eqn:Hsize.
  - destruct (M.settled (M.getCroppedImg browser current c (M.mimeType m)))
      as [out | e] eqn:Hrun; simpl.
    + repeat split; auto.
      * intros image [= <-].
        exact (@ImageCropModalMore.getCroppedImg_type browser current c
                 (M.mimeType m) out Hrun).
      * intros [H | [H | (c' & [= <-] & Hzero)]]; try discriminate.
        apply andb_prop in Hsize as [Hw Hh].
        apply Qtruthy_true in Hw. apply Qtruthy_true in Hh. tauto.
    + repeat split; auto; try discriminate.
      intros [H | [H | (c' & [= <-] & Hzero)]]; try discriminate.
      apply andb_prop in Hsize as [Hw Hh].
      apply Qtruthy_true in Hw. apply Qtruthy_true in Hh. tauto.
  - simpl. repeat split; auto. discriminate.
Qed.

(** X16.  The zoom does not build up: two moves of the range input in a
    row leave the modal, the size its image is laid out at included, as
    the second move alone does. *)
Theorem zoom_last_wins (lib : RC.Library) (m : M.Modal) (first second : Q) :
  M.step (M.step m (M.ZoomMoved first)) (M.ZoomMoved second)
  = M.step m (M.ZoomMoved second).
Proof.
  unfold M.step, M.onZoomChange, M.render, M.setScale, M.setImgRef, M.imgStyle.
  simpl. destruct (Qtruthy (Size.width (M.imgSize m)));
    destruct (M.imgRef m); reflexivity.
Qed.



Section WithLibrary.

Context {lib : RC.Library}.

Lemma render_notLoaded (m : M.Modal) :
  Shape.notLoaded (M.imgRef m) -> Shape.notLoaded (M.imgRef (M.render m)).
Proof.
  unfold M.render; simpl. destruct (M.imgRef m) as [img|]; simpl; [|auto].
  destruct (M.imgStyle m); simpl; auto.
Qed.

Lemma aspectEffect_notLoaded (m : M.Modal) :
  Shape.notLoaded (M.imgRef m) -> M.aspectEffect m = m.
Proof.
  unfold M.aspectEffect. destruct (M.imgRef m) as [img|]; simpl; [|auto].
  intros H. rewrite (proj2 (guard_false _ _) H). reflexivity.
Qed.

Lemma quiet_step (m : M.Modal) (ev : M.Event) :
  Shape.quiet ev = true ->
  M.crop m = None -> Shape.notLoaded (M.imgRef m) ->
  M.crop (M.step m ev) = None /\ Shape.notLoaded (M.imgRef (M.step m ev)).
Proof.
  intros Hq Hcrop Hnot. destruct ev as [|e|a|c|v]; try discriminate; simpl.
  - rewrite (aspectEffect_notLoaded m Hnot).
    split; [exact Hcrop | apply render_notLoaded, Hnot].
  - destruct (Qeq_bool a (M.aspect m)).
    + split; [exact Hcrop | apply render_notLoaded, Hnot].
    + rewrite (aspectEffect_notLoaded (M.setAspect a m) Hnot).
      split; [exact Hcrop | apply (render_notLoaded (M.setAspect a m)), Hnot].
  - split; [exact Hcrop|].
    apply (render_notLoaded (M.onZoomChange v m)), Hnot.
Qed.

(** X18.  No crop before the load.  In a modal without crop whose image
    has no positive natural size yet, no sequence of mounts, aspect
    changes and zoom moves sets a crop: only the load of the image or a
    drag of the user does, and until then the save button does nothing. *)
Theorem no_crop_before_load (evs : list M.Event) (m : M.Modal) :
  M.crop m = None ->
  Shape.notLoaded (M.imgRef m) ->
  forallb Shape.quiet evs = true ->
  M.crop (M.run m evs) = None
  /\ forall browser, M.handleSaveClick browser (M.run m evs)
                     = ([], (M.run m evs, None)).
Proof.
  intros Hcrop Hnot Hquiet.
  assert (Hnone : M.crop (M.run m evs) = None).
  { revert m Hcrop Hnot. unfold M.run.
    induction evs as [|ev evs IH]; intros m Hcrop Hnot; simpl; [exact Hcrop|].
    simpl in Hquiet. apply andb_prop in Hquiet as [Hq Hrest].
    destruct (quiet_step m ev Hq Hcrop Hnot) as [Hcrop' Hnot'].
    apply (IH Hrest _ Hcrop' Hnot'). }
  split; [exact Hnone|]. intros browser.
  unfold M.handleSaveClick. rewrite Hnone.
  destruct (M.imgRef (M.run m evs)); reflexivity.
Qed.

Lemma step_mimeType (m : M.Modal) (ev : M.Event) :
  M.mimeType (M.step m ev) = M.mimeType m.
Proof.
  destruct ev as [|e|a|c|v]; simpl.
  - unfold M.aspectEffect. destruct (M.imgRef m) as [img|]; [|reflexivity].
    destruct (Qgtb _ 0 && Qgtb _ 0); reflexivity.
  - unfold M.onImageLoad. destruct (Qgtb _ 0 && Qgtb _ 0); reflexivity.
  - destruct (Qeq_bool a (M.aspect m)); [reflexivity|].
    unfold M.aspectEffect; simpl. destruct (M.imgRef m) as [img|]; [|reflexivity].
    destruct (Qgtb _ 0 && Qgtb _ 0); reflexivity.
  - reflexivity.
  - reflexivity.
Qed.

Lemma run_mimeType (evs : list M.Event) (m : M.Modal) :
  M.mimeType (M.run m evs) = M.mimeType m.
Proof.
  revert m. unfold M.run. induction evs as [|ev evs IH]; intros m; simpl;
    [reflexivity|].
  rewrite IH. apply step_mimeType.
Qed.

(** X19.  From the upload to the cropped image.  After a product upload
    that passes the gate and is read, the modal mounts; whatever happens in
    it before the save (loads, aspect changes, drags, zoom moves), and
    whatever the browser makes of the export: if the click on the save
    button leaves a product image, that image has the declared type of the
    uploaded file, the modal is closed and gone, and the original is still
    the uploaded one; if it leaves none, the modal is still there. *)
Theorem cropped_image_keeps_type (file : GeminiService.File) (result : string)
  (s : App.State) (img : Img.t) (evs : list M.Event) (browser : Dom.Browser) :
  GeminiService.type file = "image/jpeg"
  \/ GeminiService.type file = "image/png"
  \/ GeminiService.type file = "image/webp" ->
  (GeminiService.size file <= 10 * 1024 * 1024)%Z ->
  GeminiService.readAsDataURL file = Some result ->
  let uploaded := valueOf (App.handleFileUpload file App.product s) in
  let w := Studio.modalEvents evs (Studio.mountModal img uploaded) in
  let after := valueOf (Studio.clickSave browser w) in
  (forall image,
      App.productImage (Studio.app after) = Some image ->
      mimeType image = GeminiService.type file
      /\ App.isCropModalOpen (Studio.app after) = false
      /\ Studio.modal after = None
      /\ App.originalProductImage (Studio.app after)
         = App.originalProductImage uploaded)
  /\ (App.productImage (Studio.app after) = None ->
      Studio.modal after <> None).
Proof.
  intros Ht Hs Hread uploaded w after.
  destruct (AppMore.gate_passed file Ht Hs) as [Hgate Hsize].
  assert (Hup : uploaded
                = App.setIsCropModalOpen true
                    (App.setProductImage None
                       (App.setOriginalProductImage
                          (Some {| Original.dataUrl :=
                                     "data:" ++ GeminiService.type file
                                     ++ ";base64,"
                                     ++ nth 1 (split "," result) EmptyString;
                                   Original.mimeType :=
                                     GeminiService.type file |})
                          (App.setError None s)))).
  { subst uploaded. unfold App.handleFileUpload, GeminiService.fileToBase64.
    rewrite Hgate, Hsize, Hread. reflexivity. }
  subst after w. rewrite Hup. unfold Studio.mountModal, Studio.modalEvents.
  cbn [App.isCropModalOpen App.setIsCropModalOpen App.originalProductImage
       App.setProductImage App.setOriginalProductImage Studio.modal
       Studio.app option_map Original.dataUrl Original.mimeType].
  set (mounted := M.step _ M.Mounted).
  unfold Studio.clickSave. cbn [Studio.modal Studio.app].
  pose proof (@handleSaveClick_saved_type browser (M.run mounted evs))
    as Htype.
  destruct (M.handleSaveClick browser (M.run mounted evs))
    as [log [m' saved]] eqn:Hclick.
  unfold valueOf in Htype. simpl in Htype.
  destruct saved as [image|]; simpl.
  - split; [|discriminate].
    intros image' [= <-]. split; [|repeat split].
    rewrite (Htype image eq_refl), run_mimeType.
    subst mounted. rewrite step_mimeType. reflexivity.
  - split; [discriminate|]. intros _. discriminate.
Qed.

(** X20.  Upload, then cancel.  A product upload that passes the gate
    and is read drops the cropped product image of before; closing the
    modal without saving does not bring it back: there is no product
    image, the generate button is disabled, [handleGenerateImage] only
    asks for the missing input, whatever the remote service, and the
    generated image of an earlier run is still there. *)
Theorem upload_then_cancel (file : GeminiService.File) (result : string)
  (s : App.State) (img : Img.t) :
  GeminiService.type file = "image/jpeg"
  \/ GeminiService.type file = "image/png"
  \/ GeminiService.type file = "image/webp" ->
  (GeminiService.size file <= 10 * 1024 * 1024)%Z ->
  GeminiService.readAsDataURL file = Some result ->
  let w :=
    Studio.closeModal
      (Studio.mountModal img
         (valueOf (App.handleFileUpload file App.product s))) in
  App.productImage (Studio.app w) = None
  /\ Studio.modal w = None
  /\ App.isCropModalOpen (Studio.app w) = false
  /\ App.originalProductImage (Studio.app w) <> None
  /\ App.generateDisabled (Studio.app w) = true
  /\ App.generatedImage (Studio.app w) = App.generatedImage s
  /\ forall ai,
       App.banner (valueOf (App.handleGenerateImage ai (Studio.app w)))
       = Some App.missingInputMessage
       /\ App.generatedImage
            (valueOf (App.handleGenerateImage ai (Studio.app w)))
          = App.generatedImage s.
Proof.
  intros Ht Hs Hread w. subst w.
  destruct (AppMore.gate_passed file Ht Hs) as [Hgate Hsize].
  unfold App.handleFileUpload, GeminiService.fileToBase64.
  rewrite Hgate, Hsize, Hread. simpl.
  repeat split; try discriminate.
  unfold App.generateDisabled; simpl. apply orb_true_r.
Qed.

End WithLibrary.

Lemma upload_then_cancel_witness :
  (5 * 1024 * 1024 <= 10 * 1024 * 1024)%Z
  /\ App.productImage Samples.afterGeneration = Some Samples.product
  /\ App.productImage
       (Studio.app
          (Studio.closeModal
             (Studio.mountModal (lib := RC.specLibrary) Samples.blankImg
                (valueOf (App.handleFileUpload Samples.jpeg5MiB App.product
                            Samples.afterGeneration)))))
     = None.
Proof.
  assert (Hsize : (5 * 1024 * 1024 <= 10 * 1024 * 1024)%Z) by lia.
  split; [exact Hsize|]. split; [reflexivity|].
  exact (proj1 (@upload_then_cancel RC.specLibrary Samples.jpeg5MiB
                  "data:image/jpeg;base64,/9j/4AAQ" Samples.afterGeneration
                  Samples.blankImg (or_introl eq_refl) Hsize eq_refl)).
Defined.

Lemma no_crop_before_load_witness :
  M.crop Samples.openedModal = None
  /\ Shape.notLoaded (M.imgRef Samples.openedModal)
  /\ M.crop (M.run (lib := RC.specLibrary) Samples.openedModal
               [M.Mounted; M.AspectProp (16 / 9); M.ZoomMoved 2]) = None.
Proof.
  assert (Hnot : Shape.notLoaded (M.imgRef Samples.openedModal))
    by (intros [H _]; discriminate H).
  split; [reflexivity|]. split; [exact Hnot|].
  exact (proj1 (@no_crop_before_load RC.specLibrary
                  [M.Mounted; M.AspectProp (16 / 9); M.ZoomMoved 2]
                  Samples.openedModal eq_refl Hnot eq_refl)).
Defined.

Lemma cropped_image_keeps_type_witness :
  (5 * 1024 * 1024 <= 10 * 1024 * 1024)%Z
  /\ option_map mimeType
       (App.productImage
          (Studio.app
             (valueOf
                (Studio.clickSave Samples.standardBrowser
                   (Studio.modalEvents (lib := RC.specLibrary)
                      [M.ImageLoaded Samples.square1000]
                      (Studio.mountModal (lib := RC.specLibrary)
                         Samples.blankImg
                         (valueOf (App.handleFileUpload Samples.jpeg5MiB
                                     App.product App.initial))))))))
     = Some "image/jpeg".
Proof.
  assert (Hsize : (5 * 1024 * 1024 <= 10 * 1024 * 1024)%Z) by lia.
  split; [exact Hsize|].
  destruct (@cropped_image_keeps_type RC.specLibrary Samples.jpeg5MiB
              "data:image/jpeg;base64,/9j/4AAQ" App.initial Samples.blankImg
              [M.ImageLoaded Samples.square1000] Samples.standardBrowser
              (or_introl eq_refl) Hsize eq_refl)
    as [Hsaved _].
  destruct (App.productImage _) as [image|] eqn:Himage.
  - simpl. f_equal. exact (proj1 (Hsaved image eq_refl)).
  - exfalso. vm_compute in Himage. discriminate Himage.
Defined.

End StudioMore.
